(** * SpaceNet Vegas experiment configuration: scene discovery and the
      deterministic train/validation split

    A shallow embedding of [examples/spacenet/vegas/all.py].  The Python
    code is modelled as it is written: strings are [string] (bytes, with the
    ASCII case mappings of [str.lower] and [str.upper]), Python lists are
    [list], the statements of [build_dataset] and [exp_main] run in a small
    state-and-exception monad over a world made of the file listing, the
    state of the global [random] generator and a trace of the steps taken.

    What the code uses from outside the repository is modelled next to it:
    the builtins ([sorted], [round], [int], slicing, [list.remove]), the
    [re] pattern built by [get_scene_ids], and the [random] module
    ([seed], [shuffle]) as an interface with CPython's Mersenne Twister as
    its instance. *)

From Stdlib Require Import ZArith Ascii String.
From stdpp Require Import base decidable option list sorting strings.

Local Open Scope Z_scope.

(** ** Python strings *)

Module PyStr.

Definition code (c : ascii) : N := N_of_ascii c.

Definition is_upper (c : ascii) : bool := ((65 <=? code c) && (code c <=? 90))%N.
Definition is_lower (c : ascii) : bool := ((97 <=? code c) && (code c <=? 122))%N.
Definition is_digit (c : ascii) : bool := ((48 <=? code c) && (code c <=? 57))%N.

Definition lower_char (c : ascii) : ascii :=
  if is_upper c then ascii_of_N (code c + 32) else c.
Definition upper_char (c : ascii) : ascii :=
  if is_lower c then ascii_of_N (code c - 32) else c.

(** [s.lower()] and [s.upper()] on ASCII text: the letters a-z and A-Z are
    mapped, every other byte is kept.  Python also maps the cased letters
    outside ASCII; statements about the letter case of arbitrary text are
    made for ASCII strings, see [is_ascii]. *)
Fixpoint lower (s : string) : string :=
  match s with
  | EmptyString => EmptyString
  | String c s' => String (lower_char c) (lower s')
  end.

Fixpoint upper (s : string) : string :=
  match s with
  | EmptyString => EmptyString
  | String c s' => String (upper_char c) (upper s')
  end.

(** [s.startswith(p)] and [s.endswith(p)]. *)
Fixpoint startswith (s p : string) : bool :=
  match p, s with
  | EmptyString, _ => true
  | String a p', String b s' => if decide (a = b) then startswith s' p' else false
  | String _ _, EmptyString => false
  end.

Definition endswith (s p : string) : bool :=
  startswith (String.rev s) (String.rev p).

(** [s.split(sep)] for a one-character separator: the fields between the
    separators, empty fields included. *)
Fixpoint split_go (sep : ascii) (cur : string) (s : string) : list string :=
  match s with
  | EmptyString => [String.rev cur]
  | String c s' =>
      if decide (c = sep) then String.rev cur :: split_go sep EmptyString s'
      else split_go sep (String c cur) s'
  end.
Definition split (sep : ascii) (s : string) : list string :=
  split_go sep EmptyString s.

(** [os.path.join(a, *p)] of posixpath: an absolute component restarts the
    path, a separator is added unless the path so far is empty or ends
    with one. *)
Definition join2 (path b : string) : string :=
  if startswith b "/" then b
  else if decide (path = "") then b
  else if endswith path "/" then path +:+ b
  else path +:+ "/" +:+ b.
Definition path_join (a : string) (p : list string) : string :=
  foldl join2 a p.

(** [int(s)] on an ASCII string: surrounding whitespace, an optional sign,
    then decimal digits, single underscores allowed between digits.  On
    text outside ASCII Python also reads the decimal digits and the white
    space of other scripts, which this function does not. *)
Fixpoint strip_l (s : string) : string :=
  match s with
  | String c s' => if Ascii.is_space c then strip_l s' else s
  | EmptyString => EmptyString
  end.
Definition strip (s : string) : string :=
  String.rev (strip_l (String.rev (strip_l s))).

Definition digit_val (c : ascii) : Z := Z.of_N (code c) - 48.

(** [prev_digit] tells whether the previous character was a digit: an
    underscore is only legal after a digit and before another one. *)
Fixpoint digits_go (acc : Z) (prev_digit : bool) (s : string) : option Z :=
  match s with
  | EmptyString => if prev_digit then Some acc else None
  | String c s' =>
      if is_digit c then digits_go (10 * acc + digit_val c) true s'
      else if decide (c = "_"%char)
           then (if prev_digit
                 then match s' with
                      | String d _ => if is_digit d then digits_go acc false s' else None
                      | EmptyString => None
                      end
                 else None)
           else None
  end.

Definition int_of_string (s : string) : option Z :=
  match strip s with
  | String "-" s' => Z.opp <$> digits_go 0 false s'
  | String "+" s' => digits_go 0 false s'
  | s' => digits_go 0 false s'
  end.

End PyStr.

(** ** Python floats: the part used by [round(len(scene_ids) * split_ratio)]

    A finite non-negative binary64 value is [mant * 2 ^ expo] with
    [mant < 2 ^ 53] after rounding; every operation rounds to nearest, ties
    to even, as IEEE 754 and CPython do.  Overflow does not arise below
    [2 ^ 1024]. *)

Module PyFloat.

Record float := Float { mant : Z; expo : Z }.

(** [n.bit_length()] *)
Definition bit_length (n : Z) : Z := if n =? 0 then 0 else Z.log2 n + 1.

(** [x / 2 ^ s] rounded to the nearest integer, ties to the even one. *)
Definition round_half_even (x s : Z) : Z :=
  let q := x / 2 ^ s in
  let r := x mod 2 ^ s in
  if 2 * r <? 2 ^ s then q
  else if 2 ^ s <? 2 * r then q + 1
  else if Z.even q then q else q + 1.

(** The binary64 value nearest to [m * 2 ^ e]: 53 significant bits. *)
Definition normalize (m e : Z) : float :=
  let s := Z.max 0 (bit_length m - 53) in
  Float (round_half_even m s) (e + s).

(** [float(n)] for an int, as [len(...) * 0.8] converts its left operand. *)
Definition of_int (n : Z) : float := normalize n 0.

Definition mul (a b : float) : float :=
  normalize (mant a * mant b) (expo a + expo b).

(** [round(x)] with one argument: the nearest int, ties to even. *)
Definition round (x : float) : Z :=
  if 0 <=? expo x then mant x * 2 ^ expo x
  else round_half_even (mant x) (- expo x).

(** The literal [0.8]: [0x1.999999999999ap-1]. *)
Definition lit_0_8 : float := Float 7205759403792794 (-53).

End PyFloat.

(** ** Regular expressions: the fragment of [re] that [get_scene_ids] uses

    A backtracking matcher in continuation-passing style, exploring the
    alternatives in the order [re] does: a greedy repetition first tries to
    take one more character and gives it back when the rest fails. *)

Module Re.

Inductive regex :=
| Lit (l : string)              (* literal text *)
| Star (cls : ascii → bool)     (* [c*], greedy, for a character class *)
| Plus (cls : ascii → bool)     (* [c+], greedy *)
| Group (r : regex)             (* [( r )], the capture group 1 *)
| Seq (r1 r2 : regex).

(** [.] matches every character but a newline; [\d] a decimal digit, here
    0-9: the decimal digits of ASCII text (on a [str] pattern [re] also
    takes the decimal digits of other scripts). *)
Definition dot (c : ascii) : bool := negb (bool_decide (c = "010"%char)).
Definition digit (c : ascii) : bool := PyStr.is_digit c.

(** [strip_prefix l s] is what is left of [s] after the literal [l]. *)
Fixpoint strip_prefix (l s : string) : option string :=
  match l, s with
  | EmptyString, _ => Some s
  | String a l', String b s' => if decide (a = b) then strip_prefix l' s' else None
  | String _ _, EmptyString => None
  end.

(** The first [n] characters of [s]. *)
Fixpoint take_str (n : nat) (s : string) : string :=
  match n, s with
  | S n', String c s' => String c (take_str n' s')
  | _, _ => EmptyString
  end.

(** The text between position [s] and the later position [s']. *)
Definition consumed (s s' : string) : string :=
  take_str (String.length s - String.length s') s.

Section matcher.
Context {X : Type}.

Fixpoint star_go (cls : ascii → bool) (s : string) (k : string → option X)
  : option X :=
  match s with
  | String c s' =>
      if cls c
      then match star_go cls s' k with
           | Some m => Some m
           | None => k s
           end
      else k s
  | EmptyString => k s
  end.

(** [g] is the text held by group 1 so far (empty until the group closes;
    the pattern of this program closes it on every successful path). *)
Fixpoint run (r : regex) (s : string) (g : string)
    (k : string → string → option X) : option X :=
  match r with
  | Lit l =>
      match strip_prefix l s with
      | Some s' => k s' g
      | None => None
      end
  | Star cls => star_go cls s (λ s', k s' g)
  | Plus cls =>
      match s with
      | String c s' => if cls c then star_go cls s' (λ s'', k s'' g) else None
      | EmptyString => None
      end
  | Group r1 => run r1 s g (λ s' _, k s' (consumed s s'))
  | Seq r1 r2 => run r1 s g (λ s' g', run r2 s' g' k)
  end.
End matcher.

(** [pattern.match(s)]: anchored at the start of [s], not at its end.  The
    result stands for the match object and holds its [group(1)]. *)
Definition re_match (r : regex) (s : string) : option string :=
  run r s "" (λ _ g, Some g).

End Re.

(** ** The [random] module

    The generator behind the module-level functions is an interface: its
    state, [seed(a)] for an int [a] (which replaces the whole state), and
    the private [_randbelow(n)] that [shuffle] draws from, which returns an
    int in [range(n)]. *)

Class RandomGen := {
  gen : Type;
  seed : Z → gen;
  randbelow : nat → gen → nat * gen;
  randbelow_lt n g : (0 < n)%nat → ((randbelow n g).1 < n)%nat
}.

Section shuffle.
Context `{R : RandomGen} {A : Type}.

(** [x[i], x[j] = x[j], x[i]]: both reads come first, then [x[i]] is
    written, then [x[j]].  An index out of range would be an IndexError;
    [shuffle] never produces one, and the model leaves the list alone. *)
Definition swap (x : list A) (i j : nat) : list A :=
  match x !! j, x !! i with
  | Some xj, Some xi => <[j:=xi]> (<[i:=xj]> x)
  | _, _ => x
  end.

(** [for i in reversed(range(1, len(x))): j = randbelow(i + 1); swap] *)
Fixpoint shuffle_down (i : nat) (x : list A) (g : gen) : list A * gen :=
  match i with
  | O => (x, g)
  | S i' =>
      let '(j, g') := randbelow (i + 1) g in
      shuffle_down i' (swap x i j) g'
  end.

(** [random.shuffle(x)]: the shuffled list and the generator afterwards. *)
Definition shuffle (x : list A) (g : gen) : list A * gen :=
  shuffle_down (length x - 1) x g.
End shuffle.

(** *** CPython's generator: MT19937 ([_randommodule.c], [random.py])

    Words are 32-bit unsigned integers in [Z], every arithmetic result is
    cut back with [u32]. *)

Module MT19937.

Definition N : nat := 624.
Definition M : nat := 397.
Definition MATRIX_A : Z := 0x9908b0df.
Definition UPPER_MASK : Z := 0x80000000.
Definition LOWER_MASK : Z := 0x7fffffff.

Definition u32 (x : Z) : Z := Z.land x 0xffffffff.

(** [exhausted] is not part of CPython's state: it records that a
    [_randbelow] loop was cut off by [draw_budget] below, so that a run
    whose final state has it unset is a run of the real generator. *)
Record state := State { mt : list Z; index : nat; exhausted : bool }.

(** [for (i = lo; i < lo + n; i++) body] *)
Fixpoint for_up {T : Type} (n : nat) (i : nat) (body : nat → T → T) (s : T) : T :=
  match n with
  | O => s
  | S n' => for_up n' (S i) body (body i s)
  end.

Definition mix (prev : Z) : Z := Z.lxor prev (Z.shiftr prev 30).

Definition init_genrand (s : Z) : list Z :=
  for_up (N - 1) 1
    (λ mti mt, <[mti := u32 (1812433253 * mix (mt !!! (mti - 1)%nat) + Z.of_nat mti)]> mt)
    (<[0%nat := u32 s]> (replicate N 0)).

(** The loop state of [init_by_array]: the array and the cursors [i], [j]. *)
Definition wrap_i (st : list Z * nat) : list Z * nat :=
  let '(mt, i) := st in
  if decide (N ≤ i)%nat then (<[0%nat := mt !!! (N - 1)%nat]> mt, 1%nat) else (mt, i).

Definition init_by_array (init_key : list Z) : list Z :=
  let key_length := length init_key in
  let k1 := if decide (key_length < N)%nat then N else key_length in
  let '(mt, i, _) :=
    for_up k1 0
      (λ _ '(mt, i, j),
         let v := u32 (Z.lxor (mt !!! i) (mix (mt !!! (i - 1)%nat) * 1664525)
                       + init_key !!! j + Z.of_nat j) in
         let '(mt, i) := wrap_i (<[i := v]> mt, S i) in
         let j := S j in
         (mt, i, if decide (key_length ≤ j)%nat then 0%nat else j))
      (init_genrand 19650218, 1%nat, 0%nat) in
  let '(mt, _) :=
    for_up (N - 1) 0
      (λ _ '(mt, i),
         let v := u32 (Z.lxor (mt !!! i) (mix (mt !!! (i - 1)%nat) * 1566083941)
                       - Z.of_nat i) in
         wrap_i (<[i := v]> mt, S i))
      (mt, i) in
  <[0%nat := 0x80000000]> mt.

(** The key of [seed(a)]: the 32-bit digits of [abs(a)], least first, one
    zero digit for [0]. *)
Fixpoint digits32 (n : nat) (a : Z) : list Z :=
  match n with
  | O => []
  | S n' => u32 a :: digits32 n' (Z.shiftr a 32)
  end.

Definition seed_key (a : Z) : list Z :=
  let bits := PyFloat.bit_length (Z.abs a) in
  digits32 (if bits =? 0 then 1 else Z.to_nat ((bits - 1) / 32 + 1)) (Z.abs a).

Definition seed (a : Z) : state :=
  State (init_by_array (seed_key a)) N false.

(** One step of the regeneration loops of [genrand_uint32]. *)
Definition twist_at (kk next src : nat) (mt : list Z) : list Z :=
  let y := Z.lor (Z.land (mt !!! kk) UPPER_MASK) (Z.land (mt !!! next) LOWER_MASK) in
  <[kk := Z.lxor (Z.lxor (mt !!! src) (Z.shiftr y 1))
                 (if Z.testbit y 0 then MATRIX_A else 0)]> mt.

Definition twist (mt : list Z) : list Z :=
  let mt := for_up (N - M) 0 (λ kk, twist_at kk (kk + 1) (kk + M)) mt in
  let mt := for_up (M - 1) (N - M) (λ kk, twist_at kk (kk + 1) (kk + M - N)) mt in
  twist_at (N - 1) 0 (M - 1) mt.

Definition temper (y : Z) : Z :=
  let y := Z.lxor y (Z.shiftr y 11) in
  let y := Z.lxor y (Z.land (u32 (Z.shiftl y 7)) 0x9d2c5680) in
  let y := Z.lxor y (Z.land (u32 (Z.shiftl y 15)) 0xefc60000) in
  Z.lxor y (Z.shiftr y 18).

Definition genrand_uint32 (g : state) : Z * state :=
  let '(mt, i) := if decide (N ≤ index g)%nat then (twist (mt g), 0%nat)
                  else (mt g, index g) in
  (temper (mt !!! i), State mt (S i) (exhausted g)).

(** [getrandbits(k)] for [0 < k]: whole words least significant first,
    the last one cut to the bits that remain. *)
Fixpoint getrandbits_words (words : nat) (k : Z) (g : state) : Z * state :=
  match words with
  | O => (0, g)
  | S w =>
      let '(r, g) := genrand_uint32 g in
      let r := if k <? 32 then Z.shiftr r (32 - k) else r in
      let '(hi, g) := getrandbits_words w (k - 32) g in
      (Z.lor r (Z.shiftl hi 32), g)
  end.

Definition getrandbits (k : Z) (g : state) : Z * state :=
  getrandbits_words (Z.to_nat ((k - 1) / 32 + 1)) k g.

(** [r = getrandbits(k); while r >= n: r = getrandbits(k)], at most [fuel]
    draws. *)
Fixpoint randbelow_loop (fuel : nat) (n k : Z) (g : state) : option (Z * state) :=
  match fuel with
  | O => None
  | S fuel' =>
      let '(r, g') := getrandbits k g in
      if r <? n then Some (r, g') else randbelow_loop fuel' n k g'
  end.

(** CPython's loop has no bound; a draw is accepted with probability above
    one half.  The model stops after [draw_budget] draws, answers [0] and
    marks the state. *)
Definition draw_budget : nat := 4096.

Definition randbelow (n : nat) (g : state) : nat * state :=
  match randbelow_loop draw_budget (Z.of_nat n)
          (PyFloat.bit_length (Z.of_nat n)) g with
  | Some (r, g') => (Z.to_nat r, g')
  | None => (0%nat, State (mt g) (index g) true)
  end.

End MT19937.

Lemma MT19937_randbelow_loop_lt fuel n k g r g' :
  MT19937.randbelow_loop fuel n k g = Some (r, g') → r < n.
Proof.
  revert g. induction fuel as [|fuel IH]; intros g; simpl; [done|].
  destruct (MT19937.getrandbits k g) as [r0 g0].
  destruct (Z.ltb_spec r0 n); [|by apply IH].
  intros [= <- <-]. done.
Qed.

Lemma MT19937_randbelow_lt n g :
  (0 < n)%nat → ((MT19937.randbelow n g).1 < n)%nat.
Proof.
  intros Hn. unfold MT19937.randbelow.
  destruct (MT19937.randbelow_loop _ _ _ g) as [[r g']|] eqn:Hloop; simpl; [|done].
  apply MT19937_randbelow_loop_lt in Hloop. lia.
Qed.

(** CPython's [random] module as an instance of the interface. *)
Definition mt19937 : RandomGen :=
  {| gen := MT19937.state;
     seed := MT19937.seed;
     randbelow := MT19937.randbelow;
     randbelow_lt := MT19937_randbelow_lt |}.

(** ** Values, exceptions and configuration objects *)

(** The Python values that can reach [str_to_bool] and [if test:]. *)
Inductive py_val :=
| PyBool (b : bool)
| PyStr (s : string)
| PyInt (n : Z)
| PyNone.

(** Truth value testing, as [if x:] does it. *)
Definition truthy (x : py_val) : bool :=
  match x with
  | PyBool b => b
  | PyStr s => negb (bool_decide (s = ""))
  | PyInt n => negb (n =? 0)
  | PyNone => false
  end.

(** The messages of the [ValueError]s the module raises, by raise site. *)
Inductive message :=
| ExpectedTrueOrFalse (x : string)    (* '{} is expected to be true or false' *)
| NotAValidTargetCreate (target : string) (* '{} is not a valid target.' *)
| NotAValidTaskType (task_type : string)  (* '{} is not a valid task_type' *)
| NotAValidTarget (target : string)   (* '{} is not a valid target' *)
| NotValidForRoads (task_type : string) (* '{} is not valid task_type for target=roads' *)
| NeedsThreeValues   (* 'vector_tile_options needs to have 3 comma-delimited values' *)
| NoScenesFound      (* 'No scenes found. Something is configured incorrectly.' *)
| UnpackMismatch     (* tuple unpacking of a list that has not three items *)
| InvalidIntLiteral (s : string).     (* raised by [int(zoom)] *)

Inductive exn :=
| ValueError (m : message)
| AttributeError             (* [None.group(1)] after a failed [match] *)
| UnboundLocalError (name : string).

Inductive result (A : Type) :=
| Ok (a : A)
| Raise (e : exn).
Arguments Ok {A} a.
Arguments Raise {A} e.

Global Instance result_ret : MRet result := λ A a, Ok a.
Global Instance result_bind : MBind result := λ A B f m,
  match m with
  | Ok a => f a
  | Raise e => Raise e
  end.
Global Instance result_throw : MThrow exn result := λ A e, Raise e.

(** Names exported by the [rastervision] package.  The task types are the
    upper-case names that [exp_main] obtains with [task_type.upper()]. *)
Module rv.
Inductive task_type := SEMANTIC_SEGMENTATION | CHIP_CLASSIFICATION | OBJECT_DETECTION.

Definition name (t : task_type) : string :=
  match t with
  | SEMANTIC_SEGMENTATION => "SEMANTIC_SEGMENTATION"
  | CHIP_CLASSIFICATION => "CHIP_CLASSIFICATION"
  | OBJECT_DETECTION => "OBJECT_DETECTION"
  end.

Inductive backend_type :=
| PYTORCH_SEMANTIC_SEGMENTATION
| PYTORCH_CHIP_CLASSIFICATION
| PYTORCH_OBJECT_DETECTION.

Global Instance task_type_eq_dec : EqDecision task_type.
Proof. solve_decision. Defined.
End rv.

Definition BUILDINGS : string := "buildings".
Definition ROADS : string := "roads".

(** The two subclasses of [SpacenetConfig]; [cls] is the class of the
    object, for [isinstance] and the overridden methods. *)
Inductive config_class := VegasRoadsCls | VegasBuildingsCls.

Record SpacenetConfig := {
  cls : config_class;
  raw_uri : string;
  base_dir : string;
  raster_dir : string;
  label_dir : string;
  raster_fn_prefix : string;
  label_fn_prefix : string
}.

Definition VegasRoads (raw_uri : string) : SpacenetConfig :=
  {| cls := VegasRoadsCls;
     raw_uri := raw_uri;
     base_dir := "spacenet/SN3_roads/train/AOI_2_Vegas/";
     raster_dir := "PS-RGB/";
     label_dir := "geojson_roads/";
     raster_fn_prefix := "SN3_roads_train_AOI_2_Vegas_PS-RGB_img";
     label_fn_prefix := "SN3_roads_train_AOI_2_Vegas_geojson_roads_img" |}.

Definition VegasBuildings (raw_uri : string) : SpacenetConfig :=
  {| cls := VegasBuildingsCls;
     raw_uri := raw_uri;
     base_dir := "spacenet/SN2_buildings/train/AOI_2_Vegas";
     raster_dir := "PS-RGB";
     label_dir := "geojson_buildings";
     raster_fn_prefix := "SN2_buildings_train_AOI_2_Vegas_PS-RGB_img";
     label_fn_prefix := "SN2_buildings_train_AOI_2_Vegas_geojson_buildings_img" |}.

(** [SpacenetConfig.create] *)
Definition create (raw_uri target : string) : result SpacenetConfig :=
  if decide (PyStr.lower target = BUILDINGS) then Ok (VegasBuildings raw_uri)
  else if decide (PyStr.lower target = ROADS) then Ok (VegasRoads raw_uri)
  else Raise (ValueError (NotAValidTargetCreate target)).

Definition get_raster_source_uri (self : SpacenetConfig) (id : string) : string :=
  PyStr.path_join (raw_uri self)
    [base_dir self; raster_dir self; raster_fn_prefix self +:+ id +:+ ".tif"].

Definition get_geojson_uri (self : SpacenetConfig) (id : string) : string :=
  PyStr.path_join (raw_uri self)
    [base_dir self; label_dir self; label_fn_prefix self +:+ id +:+ ".geojson"].

(** Class maps: class name to (id, colour). *)
Definition get_class_map (self : SpacenetConfig) : list (string * (Z * string)) :=
  match cls self with
  | VegasRoadsCls => [("Road", (1, "orange")); ("Background", (2, "black"))]
  | VegasBuildingsCls => [("Building", (1, "orange")); ("Background", (2, "black"))]
  end.

Definition get_class_id_to_filter (self : SpacenetConfig) : list (Z * list string) :=
  match cls self with
  | VegasRoadsCls => [(1, ["has"; "highway"])]
  | VegasBuildingsCls => [(1, ["has"; "building"])]
  end.

(** The pattern compiled by [get_scene_ids]:
    ['.*{}(\d+)\.geojson'.format(prefix)].  Both prefixes consist of
    letters, digits and underscores, which stand for themselves. *)
Definition label_re (prefix : string) : Re.regex :=
  Re.Seq (Re.Star Re.dot)
    (Re.Seq (Re.Lit prefix)
       (Re.Seq (Re.Group (Re.Plus Re.digit)) (Re.Lit ".geojson"))).

(** The configuration objects of the framework are records of what the
    builder chains are given (float-valued training options are left out). *)
Record VectorTileOptions := {
  vt_uri : string;
  vt_zoom : Z;
  vt_id_field : string
}.

Record Task := {
  task_type : rv.task_type;
  chip_size : Z;
  classes : list (string * (Z * string))
}.

Record Backend := {
  backend_type : rv.backend_type;
  backend_task : Task;
  batch_size : Z;
  num_epochs : Z;
  model_arch : string;
  debug : bool
}.

(** Every vector source is built [with_buffers(line_bufs={1: 15})]. *)
Inductive VectorSource :=
| GeoJSONSource (uri : string)
| VectorTileSource (class_id_to_filter : list (Z * list string))
    (uri : string) (zoom : Z) (id_field : string).

Inductive LabelSource :=
| SemanticSegmentationLabels (vs : VectorSource) (background_class_id : Z)
| ChipClassificationLabels (vs : VectorSource) (background_class_id : Z)
| ObjectDetectionLabels (vs : VectorSource).

(** [{'mode': ..., 'class_id': ..., 'denoise': ...}] *)
Record VectorOutput := { vo_mode : string; vo_class_id : Z; vo_denoise : Z }.

(** A scene as [build_scene] configures it.  [label_store] is the argument
    that [build_scene] passes to [with_label_store]: [None] asks for nothing
    and leaves the label store to the framework. *)
Record Scene := {
  scene_task : Task;
  scene_id : string;
  raster_source_uri : string;
  channel_order : list Z;
  label_source : LabelSource;
  label_store : option (list VectorOutput)
}.

Record Dataset := {
  train_scenes : list Scene;
  validation_scenes : list Scene
}.

Record Experiment := {
  exp_id : string;
  exp_task : Task;
  exp_backend : Backend;
  exp_dataset : Dataset;
  exp_root_uri : string
}.

Definition build_scene (task : Task) (spacenet_config : SpacenetConfig)
    (id : string) (channel_order : list Z)
    (vector_tile_options : option VectorTileOptions) : Scene :=
  let raster_source := get_raster_source_uri spacenet_config id in
  let vector_source :=
    match vector_tile_options with
    | None => GeoJSONSource (get_geojson_uri spacenet_config id)
    | Some options =>
        VectorTileSource (get_class_id_to_filter spacenet_config)
          (vt_uri options) (vt_zoom options) (vt_id_field options)
    end in
  let '(label_source, label_store) :=
    match task_type task with
    | rv.SEMANTIC_SEGMENTATION =>
        (SemanticSegmentationLabels vector_source 2,
         match cls spacenet_config with
         | VegasBuildingsCls => Some [ {| vo_mode := "polygons"; vo_class_id := 1; vo_denoise := 3 |} ]
         | VegasRoadsCls => None
         end)
    | rv.CHIP_CLASSIFICATION => (ChipClassificationLabels vector_source 2, None)
    | rv.OBJECT_DETECTION => (ObjectDetectionLabels vector_source, None)
    end in
  {| scene_task := task;
     scene_id := id;
     raster_source_uri := raster_source;
     channel_order := channel_order;
     label_source := label_source;
     label_store := label_store |}.

(** [build_task]: no branch of the [if]/[elif] chain binds [task] for any
    other string, and [return task] then fails. *)
Definition build_task (task_type : string)
    (class_map : list (string * (Z * string))) : result Task :=
  if decide (task_type = rv.name rv.SEMANTIC_SEGMENTATION)
  then Ok {| task_type := rv.SEMANTIC_SEGMENTATION; chip_size := 300; classes := class_map |}
  else if decide (task_type = rv.name rv.CHIP_CLASSIFICATION)
  then Ok {| task_type := rv.CHIP_CLASSIFICATION; chip_size := 200; classes := class_map |}
  else if decide (task_type = rv.name rv.OBJECT_DETECTION)
  then Ok {| task_type := rv.OBJECT_DETECTION; chip_size := 300; classes := class_map |}
  else Raise (UnboundLocalError "task").

Definition build_backend (task : Task) (test : py_val) : Backend :=
  let debug := truthy test in
  match task_type task with
  | rv.SEMANTIC_SEGMENTATION =>
      {| backend_type := rv.PYTORCH_SEMANTIC_SEGMENTATION;
         backend_task := task;
         batch_size := if truthy test then 2 else 8;
         num_epochs := if truthy test then 1 else 2;
         model_arch := "resnet50";
         debug := debug |}
  | rv.CHIP_CLASSIFICATION =>
      {| backend_type := rv.PYTORCH_CHIP_CLASSIFICATION;
         backend_task := task;
         batch_size := if truthy test then 2 else 32;
         num_epochs := if truthy test then 1 else 2;
         model_arch := "resnet18";
         debug := debug |}
  | rv.OBJECT_DETECTION =>
      {| backend_type := rv.PYTORCH_OBJECT_DETECTION;
         backend_task := task;
         batch_size := if truthy test then 1 else 16;
         num_epochs := 2;
         model_arch := "resnet18";
         debug := debug |}
  end.

(** The [str_to_bool] defined in the module (it shadows the imported one):
    only a [str] is inspected, every other value is returned as it is. *)
Definition str_to_bool (x : py_val) : result py_val :=
  match x with
  | PyStr s =>
      if decide (PyStr.lower s = "true") then Ok (PyBool true)
      else if decide (PyStr.lower s = "false") then Ok (PyBool false)
      else Raise (ValueError (ExpectedTrueOrFalse s))
  | _ => Ok x
  end.

Definition valid_task_types : list string :=
  [rv.name rv.SEMANTIC_SEGMENTATION; rv.name rv.CHIP_CLASSIFICATION;
   rv.name rv.OBJECT_DETECTION].

Definition validate_options (task_type target : string)
    (vector_tile_options : option string) : result () :=
  if bool_decide (task_type ∉ valid_task_types)
  then Raise (ValueError (NotAValidTaskType task_type))
  else if bool_decide (target ∉ [ROADS; BUILDINGS])
  then Raise (ValueError (NotAValidTarget target))
  else if bool_decide (target = ROADS)
          && bool_decide (task_type ∈ [rv.name rv.OBJECT_DETECTION])
  then Raise (ValueError (NotValidForRoads task_type))
  else match vector_tile_options with
       | Some s =>
           if decide (length (PyStr.split "," s) ≠ 3%nat)
           then Raise (ValueError NeedsThreeValues)
           else Ok ()
       | None => Ok ()
       end.

(** [VectorTileOptions.build] *)
Definition VectorTileOptions_build (config_str : option string)
  : result (option VectorTileOptions) :=
  match config_str with
  | None => Ok None
  | Some s =>
      match PyStr.split "," s with
      | [uri; zoom; id_field] =>
          match PyStr.int_of_string zoom with
          | Some z => Ok (Some {| vt_uri := uri; vt_zoom := z; vt_id_field := id_field |})
          | None => Raise (ValueError (InvalidIntLiteral zoom))
          end
      | _ => Raise (ValueError UnpackMismatch)
      end
  end.

(** ** Builtins on lists *)

(** [sorted(l)] on strings: the order is by code point, which on bytes is
    [String.le]; the order is total and antisymmetric, so the sorted list
    does not depend on the sorting algorithm. *)
Definition sorted (l : list string) : list string := merge_sort String.le l.

(** [l.remove(x)]: the first occurrence goes (a list without [x] raises in
    Python; the call below is guarded by [x in l]). *)
Fixpoint list_remove (x : string) (l : list string) : list string :=
  match l with
  | [] => []
  | y :: l' => if decide (y = x) then l' else y :: list_remove x l'
  end.

(** ** The world and the statements that touch it *)

(** The steps a run takes, in order. *)
Inductive event :=
| EvListPaths (uri ext : string)      (* [list_paths(uri, ext=ext)] *)
| EvSeed (a : Z)                      (* [random.seed(a)] *)
| EvSorted (l : list string)          (* [sorted(l)] *)
| EvShuffle (l : list string)         (* [random.shuffle(l)], [l] as passed *)
| EvRemove (x : string)               (* [scene_ids.remove(x)] *)
| EvPartition (k : Z).                (* slicing at [num_train_ids] *)

Section program.
Context `{R : RandomGen}.

(** [listing uri ext] is what [list_paths(uri, ext=ext)] returns: the files
    under [uri] whose names end with [ext]. *)
Record world := World {
  listing : string → string → list string;
  rng : gen;
  trace : list event
}.

Definition Py (A : Type) : Type := world → result A * world.

Global Instance Py_ret : MRet Py := λ A a w, (Ok a, w).
Global Instance Py_bind : MBind Py := λ A B f m w,
  match m w with
  | (Ok a, w') => f a w'
  | (Raise e, w') => (Raise e, w')
  end.
Global Instance Py_throw : MThrow exn Py := λ A e w, (Raise e, w).

Definition lift {A} (r : result A) : Py A := λ w, (r, w).

Definition log (e : event) : Py () :=
  λ w, (Ok (), World (listing w) (rng w) (trace w ++ [e])).

Definition list_paths (uri ext : string) : Py (list string) :=
  λ w, (Ok (listing w uri ext),
        World (listing w) (rng w) (trace w ++ [EvListPaths uri ext])).

Definition random_seed (a : Z) : Py () :=
  λ w, (Ok (), World (listing w) (seed a) (trace w ++ [EvSeed a])).

Definition random_shuffle (x : list string) : Py (list string) :=
  λ w, let '(x', g') := shuffle x (rng w) in
       (Ok x', World (listing w) g' (trace w ++ [EvShuffle x])).

(** [get_scene_ids]: [match] returns [None] for a path the pattern does not
    match, and [None.group(1)] raises. *)
Definition get_scene_ids (self : SpacenetConfig) : Py (list string) :=
  let label_dir := PyStr.path_join (raw_uri self) [base_dir self; label_dir self] in
  label_paths ← list_paths label_dir ".geojson";
  let label_re := label_re (label_fn_prefix self) in
  mapM (λ label_path,
          match Re.re_match label_re label_path with
          | Some group1 => mret group1
          | None => mthrow AttributeError
          end) label_paths.

Definition build_dataset (task : Task) (spacenet_config : SpacenetConfig)
    (test : py_val) (vector_tile_options : option VectorTileOptions)
  : Py Dataset :=
  scene_ids ← get_scene_ids spacenet_config;
  if decide (length scene_ids = 0%nat)
  then mthrow (ValueError NoScenesFound)
  else
    random_seed 5678;;
    log (EvSorted scene_ids);;
    let scene_ids := sorted scene_ids in
    scene_ids ← random_shuffle scene_ids;
    (* Workaround to handle scene 1000 missing on S3. *)
    scene_ids ← (if bool_decide ("1000" ∈ scene_ids)
                 then log (EvRemove "1000");; mret (list_remove "1000" scene_ids)
                 else mret scene_ids);
    let split_ratio := PyFloat.lit_0_8 in
    let num_train_ids :=
      PyFloat.round (PyFloat.mul (PyFloat.of_int (Z.of_nat (length scene_ids)))
                       split_ratio) in
    log (EvPartition num_train_ids);;
    let train_ids := take (Z.to_nat num_train_ids) scene_ids in
    let val_ids := drop (Z.to_nat num_train_ids) scene_ids in
    let num_train_scenes := if truthy test then 16%nat else length train_ids in
    let num_val_scenes := if truthy test then 4%nat else length val_ids in
    let train_ids := take num_train_scenes train_ids in
    let val_ids := take num_val_scenes val_ids in
    let channel_order := [0; 1; 2] in
    let train_scenes :=
      (λ id, build_scene task spacenet_config id channel_order vector_tile_options)
        <$> train_ids in
    let val_scenes :=
      (λ id, build_scene task spacenet_config id channel_order vector_tile_options)
        <$> val_ids in
    mret {| train_scenes := train_scenes; validation_scenes := val_scenes |}.

(** [SpacenetVegas.exp_main] *)
Definition exp_main (raw_uri root_uri : string) (test : py_val)
    (target task_type : string) (vector_tile_options : option string)
  : Py Experiment :=
  test ← lift (str_to_bool test);
  let exp_id := target +:+ "-" +:+ PyStr.lower task_type in
  let task_type := PyStr.upper task_type in
  spacenet_config ← lift (create raw_uri target);
  lift (validate_options task_type target vector_tile_options);;
  vector_tile_options ← lift (VectorTileOptions_build vector_tile_options);
  task ← lift (build_task task_type (get_class_map spacenet_config));
  let backend := build_backend task test in
  dataset ← build_dataset task spacenet_config test vector_tile_options;
  mret {| exp_id := exp_id;
          exp_task := task;
          exp_backend := backend;
          exp_dataset := dataset;
          exp_root_uri := root_uri |}.

(** The scene ids of a dataset, in order. *)
Definition train_ids (d : Dataset) : list string := scene_id <$> train_scenes d.
Definition val_ids (d : Dataset) : list string := scene_id <$> validation_scenes d.

End program.

(** ** Facts about the builtins *)

Section shuffle_facts.
Context `{R : RandomGen} {A : Type}.
Implicit Types x : list A.

Lemma swap_Permutation x i j : swap x i j ≡ₚ x.
Proof.
  unfold swap.
  destruct (x !! j) as [xj|] eqn:Hj; [|done].
  destruct (x !! i) as [xi|] eqn:Hi; [|done].
  by apply Permutation_insert_swap.
Qed.

Lemma shuffle_down_Permutation i x g : (shuffle_down i x g).1 ≡ₚ x.
Proof.
  revert x g. induction i as [|i IH]; intros x g; simpl; [done|].
  destruct (randbelow _ g) as [j g'].
  rewrite IH. apply swap_Permutation.
Qed.

Lemma shuffle_Permutation x g : (shuffle x g).1 ≡ₚ x.
Proof. apply shuffle_down_Permutation. Qed.

Lemma shuffle_length x g : length (shuffle x g).1 = length x.
Proof. by rewrite shuffle_Permutation. Qed.
End shuffle_facts.

Lemma sorted_Permutation l : sorted l ≡ₚ l.
Proof. apply merge_sort_Permutation. Qed.

Lemma sorted_StronglySorted l : StronglySorted String.le (sorted l).
Proof. apply StronglySorted_merge_sort; apply _. Qed.

(** The sorted list depends on the elements only, not on their order. *)
Lemma sorted_unique l1 l2 : l1 ≡ₚ l2 → sorted l1 = sorted l2.
Proof.
  intros Hperm.
  apply (StronglySorted_unique String.le); try apply sorted_StronglySorted.
  by rewrite !sorted_Permutation.
Qed.

Lemma list_remove_Permutation x l : x ∈ l → x :: list_remove x l ≡ₚ l.
Proof.
  induction l as [|y l IH]; simpl.
  - by intros ?%not_elem_of_nil.
  - destruct (decide (y = x)) as [->|Hne]; [done|].
    intros [?|Hin]%elem_of_cons; [congruence|].
    rewrite Permutation_swap. by rewrite (IH Hin).
Qed.

Lemma list_remove_length x l :
  x ∈ l → length (list_remove x l) = (length l - 1)%nat.
Proof.
  intros Hin. apply list_remove_Permutation, Permutation_length in Hin.
  simpl in Hin. lia.
Qed.

Lemma list_remove_subseteq x l : list_remove x l ⊆ l.
Proof.
  induction l as [|y l IH]; simpl; [done|].
  destruct (decide (y = x)); [apply list_subseteq_cons, reflexivity|].
  intros z [->|Hz]%elem_of_cons; [left|right; by apply IH].
Qed.

Lemma list_remove_NoDup x l : NoDup l → NoDup (list_remove x l) ∧ x ∉ list_remove x l.
Proof.
  intros Hnd. destruct (decide (x ∈ l)) as [Hin|Hnin].
  - pose proof (list_remove_Permutation x l Hin) as Hperm.
    rewrite <-Hperm in Hnd. by apply NoDup_cons in Hnd as [? ?].
  - assert (list_remove x l = l) as ->; [|done].
    clear Hnd. induction l as [|y l IH]; simpl; [done|].
    destruct (decide (y = x)) as [->|?]; [by destruct Hnin; left|].
    f_equal. apply IH. intros ?. apply Hnin. by right.
Qed.

Section float_facts.
Import PyFloat.

Lemma round_half_even_le x s c :
  0 ≤ s → x ≤ c * 2 ^ s → round_half_even x s ≤ c.
Proof.
  intros Hs Hx. unfold round_half_even.
  assert (0 < 2 ^ s) as Hpow by (apply Z.pow_pos_nonneg; lia).
  pose proof (Z.div_mod x (2 ^ s) ltac:(lia)) as Hdm.
  pose proof (Z.mod_pos_bound x (2 ^ s) Hpow) as Hr.
  set (q := x / 2 ^ s) in *. set (r := x mod 2 ^ s) in *.
  assert (q ≤ c) by nia.
  assert (0 < r → q + 1 ≤ c) by nia.
  destruct (Z.ltb_spec (2 * r) (2 ^ s)); [done|].
  destruct (Z.ltb_spec (2 ^ s) (2 * r)); [lia|].
  destruct (Z.even q); lia.
Qed.

Lemma round_half_even_nonneg x s : 0 ≤ s → 0 ≤ x → 0 ≤ round_half_even x s.
Proof.
  intros Hs Hx. unfold round_half_even.
  assert (0 < 2 ^ s) as Hpow by (apply Z.pow_pos_nonneg; lia).
  assert (0 ≤ x / 2 ^ s) by (apply Z.div_pos; lia).
  repeat case_match; lia.
Qed.

Lemma bit_length_nonneg n : 0 ≤ bit_length n.
Proof.
  unfold bit_length. destruct (Z.eqb_spec n 0); [done|].
  pose proof (Z.log2_nonneg n). lia.
Qed.

Lemma bit_length_le n k : 0 ≤ k → 0 ≤ n < 2 ^ k → bit_length n ≤ k.
Proof.
  intros Hk [Hn0 Hn]. unfold bit_length. destruct (Z.eqb_spec n 0); [done|].
  assert (Z.log2 n < k) by (apply Z.log2_lt_pow2; lia). lia.
Qed.

(** Below [2 ^ 53] an int converts to a float without rounding. *)
Lemma of_int_exact n : 0 ≤ n < 2 ^ 53 → of_int n = Float n 0.
Proof.
  intros Hn. unfold of_int, normalize.
  pose proof (bit_length_le n 53 ltac:(lia) Hn).
  rewrite Z.max_l by lia. f_equal.
  unfold round_half_even. simpl (2 ^ 0).
  rewrite Z.div_1_r, Z.mod_1_r. done.
Qed.

(** [round(n * 0.8)] lies between [0] and [n]. *)
Lemma round_mul_0_8_bounds n :
  0 ≤ n < 2 ^ 53 → 0 ≤ round (mul (of_int n) lit_0_8) ≤ n.
Proof.
  intros Hn. rewrite of_int_exact by done.
  unfold mul, normalize, lit_0_8, round; simpl mant; simpl expo.
  set (P := n * 7205759403792794).
  assert (0 ≤ P < 2 ^ 106) as HP by (unfold P; lia).
  pose proof (bit_length_le P 106 ltac:(lia) HP).
  pose proof (bit_length_nonneg P).
  set (s := Z.max 0 (bit_length P - 53)).
  assert (0 ≤ s ≤ 53) as Hs by lia.
  assert (P ≤ n * 2 ^ 53) as HPn by (unfold P; lia).
  assert (0 ≤ round_half_even P s) by (apply round_half_even_nonneg; lia).
  destruct (Z.leb_spec 0 (0 + -53 + s)).
  - assert (s = 53) as Hs53 by lia.
    replace (0 + -53 + s) with 0 by lia. rewrite Z.pow_0_r, Z.mul_1_r.
    split; [done|]. apply round_half_even_le; [lia|]. by rewrite Hs53.
  - replace (- (0 + -53 + s)) with (53 - s) by lia.
    split; [apply round_half_even_nonneg; lia|].
    apply round_half_even_le; [lia|].
    apply round_half_even_le; [lia|].
    rewrite <-Z.mul_assoc, <-Z.pow_add_r by lia.
    by replace (53 - s + s) with 53 by lia.
Qed.
Lemma round_half_even_error x s :
  0 ≤ s →
  2 * x - 2 ^ s ≤ 2 * (round_half_even x s * 2 ^ s) ≤ 2 * x + 2 ^ s.
Proof.
  intros Hs. unfold round_half_even.
  assert (0 < 2 ^ s) as Hpow by (apply Z.pow_pos_nonneg; lia).
  pose proof (Z.div_mod x (2 ^ s) ltac:(lia)) as Hdm.
  pose proof (Z.mod_pos_bound x (2 ^ s) Hpow) as Hr.
  set (q := x / 2 ^ s) in *. set (r := x mod 2 ^ s) in *.
  set (A := 2 ^ s) in *.
  destruct (Z.ltb_spec (2 * r) A); [nia|].
  destruct (Z.ltb_spec A (2 * r)); [nia|].
  destruct (Z.even q); nia.
Qed.

Lemma round_half_even_nearest x t c :
  0 ≤ t →
  (2 * c - 1) * 2 ^ t < 2 * x < (2 * c + 1) * 2 ^ t →
  round_half_even x t = c.
Proof.
  intros Ht Hx. unfold round_half_even.
  assert (0 < 2 ^ t) as Hpow by (apply Z.pow_pos_nonneg; lia).
  pose proof (Z.div_mod x (2 ^ t) ltac:(lia)) as Hdm.
  pose proof (Z.mod_pos_bound x (2 ^ t) Hpow) as Hr.
  set (q := x / 2 ^ t) in *. set (r := x mod 2 ^ t) in *.
  set (A := 2 ^ t) in *.
  destruct (Z.ltb_spec (2 * r) A); [nia|].
  destruct (Z.ltb_spec A (2 * r)); [nia|].
  assert (2 * x = (2 * q + 1) * A) as Heq by lia.
  rewrite Heq in Hx. destruct Hx as [Hlo Hhi].
  apply Z.mul_lt_mono_pos_r in Hlo, Hhi; lia.
Qed.

(** Up to [2 ^ 48] the float computation [round(n * 0.8)] is the integer
    nearest to four fifths of [n]. *)
Lemma round_mul_0_8_nearest n :
  0 ≤ n < 2 ^ 48 → round (mul (of_int n) lit_0_8) = (8 * n + 5) / 10.
Proof.
  intros Hn. rewrite of_int_exact by lia.
  unfold mul, normalize, lit_0_8, round; simpl mant; simpl expo.
  set (P := n * 7205759403792794).
  assert (0 ≤ P < 2 ^ 101) as HP by (unfold P; lia).
  pose proof (bit_length_le P 101 ltac:(lia) HP).
  pose proof (bit_length_nonneg P).
  set (s := Z.max 0 (bit_length P - 53)).
  assert (0 ≤ s ≤ 48) as Hs by lia.
  destruct (Z.leb_spec 0 (0 + -53 + s)); [lia|].
  replace (- (0 + -53 + s)) with (53 - s) by lia.
  pose proof (round_half_even_error P s ltac:(lia)) as HQ.
  set (Q := round_half_even P s) in *.
  assert (2 ^ s * 2 ^ (53 - s) = 2 ^ 53) as HAB.
  { rewrite <-Z.pow_add_r by lia. f_equal. lia. }
  assert (0 < 2 ^ s ≤ 2 ^ 48) as HA.
  { split; [apply Z.pow_pos_nonneg; lia|apply Z.pow_le_mono_r; lia]. }
  assert (0 < 2 ^ (53 - s)) as HB by (apply Z.pow_pos_nonneg; lia).
  set (A := 2 ^ s) in *. set (B := 2 ^ (53 - s)) in *.
  pose proof (Z.div_mod (8 * n + 5) 10 ltac:(lia)) as Hdm.
  pose proof (Z.mod_pos_bound (8 * n + 5) 10 ltac:(lia)) as Hr.
  set (r := (8 * n + 5) / 10) in *.
  apply round_half_even_nearest; [lia|].
  assert ((2 * r - 1) * (A * B) < 2 * (Q * A) < (2 * r + 1) * (A * B)) as Hm.
  { rewrite HAB. unfold P in HQ. lia. }
  nia.
Qed.
End float_facts.

(** ** The pattern of [get_scene_ids] *)

(** Every character of [s] is in the class [cls]. *)
Fixpoint all_chars (cls : ascii → bool) (s : string) : bool :=
  match s with
  | EmptyString => true
  | String c s' => cls c && all_chars cls s'
  end.

(** A string of ASCII characters.  On such strings the digits of [\d] and
    of [int], the white space of [int] and the letters that [str.lower] and
    [str.upper] change are exactly those of the definitions above. *)
Definition is_ascii (s : string) : Prop :=
  all_chars (λ c, (PyStr.code c <? 128)%N) s.

Global Instance is_ascii_dec s : Decision (is_ascii s).
Proof. unfold is_ascii. apply _. Defined.

(** What the pattern ['.*<prefix>(\d+)\.geojson'] asks of a path under
    [match]: some text without a newline, the prefix, at least one digit,
    the extension; [match] does not look at what follows. *)
Definition matches_label_pattern (prefix path : string) : Prop :=
  ∃ a d rest,
    path = a +:+ prefix +:+ d +:+ ".geojson" +:+ rest
    ∧ all_chars Re.dot a ∧ d ≠ "" ∧ all_chars Re.digit d.

Section regex_facts.
Import Re.

Lemma app_nil_str (s : string) : "" +:+ s = s.
Proof. done. Qed.

Lemma app_cons_str c (s t : string) : String c s +:+ t = String c (s +:+ t).
Proof. done. Qed.

Lemma strip_prefix_Some l s s' : strip_prefix l s = Some s' ↔ s = l +:+ s'.
Proof.
  revert s. induction l as [|a l IH]; intros s; simpl.
  - rewrite app_nil_str. destruct s; split; congruence.
  - rewrite app_cons_str. destruct s as [|b s]; [done|].
    destruct (decide (a = b)) as [->|Hne].
    + rewrite IH. split; [by intros ->|]. by intros [= ->].
    + split; [done|]. intros [= ? ?]. done.
Qed.

Lemma star_go_is_Some {X} cls s (k : string → option X) :
  is_Some (star_go cls s k)
  ↔ ∃ a b, s = a +:+ b ∧ all_chars cls a ∧ is_Some (k b).
Proof.
  induction s as [|c s IH]; simpl.
  - split.
    + intros Hk. by exists "", "".
    + intros (a & b & Hab & _ & Hk).
      destruct a; [|by rewrite app_cons_str in Hab].
      rewrite app_nil_str in Hab. by subst b.
  - destruct (cls c) eqn:Hc.
    + split.
      * destruct (star_go cls s k) as [m|] eqn:Hgo.
        -- intros _. destruct (proj1 IH) as (a & b & -> & Ha & Hk); [done|].
           exists (String c a), b. simpl. rewrite Hc. done.
        -- intros Hk. by exists "", (String c s).
      * intros (a & b & Hab & Ha & Hk). destruct a as [|c' a].
        -- rewrite app_nil_str in Hab. subst b. by destruct (star_go cls s k).
        -- rewrite app_cons_str in Hab. injection Hab as <- ->.
           simpl in Ha. rewrite Hc in Ha.
           destruct (proj2 IH) as [m ->]; [by exists a, b|]. done.
    + split.
      * intros Hk. by exists "", (String c s).
      * intros (a & b & Hab & Ha & Hk). destruct a as [|c' a].
        -- rewrite app_nil_str in Hab. by subst b.
        -- rewrite app_cons_str in Hab. injection Hab as <- ->.
           simpl in Ha. by rewrite Hc in Ha.
Qed.

(** [match] succeeds exactly on the paths of the pattern. *)
Lemma re_match_label_re prefix path :
  is_Some (re_match (label_re prefix) path) ↔ matches_label_pattern prefix path.
Proof.
  unfold re_match, label_re, matches_label_pattern. cbn [run].
  rewrite star_go_is_Some. split.
  - intros (a & b & -> & Ha & Hk).
    destruct (strip_prefix prefix b) as [s2|] eqn:Hpre; [|by destruct Hk].
    apply strip_prefix_Some in Hpre as ->.
    destruct s2 as [|c s3]; [by destruct Hk|].
    destruct (digit c) eqn:Hc; [|by destruct Hk].
    apply star_go_is_Some in Hk as (d & e & -> & Hd & Hk).
    destruct (strip_prefix ".geojson" e) as [rest|] eqn:Hext; [|by destruct Hk].
    apply strip_prefix_Some in Hext as ->.
    exists a, (String c d), rest. repeat split; try done.
    simpl. by rewrite Hc.
  - intros (a & d & rest & -> & Ha & Hd0 & Hd).
    exists a, (prefix +:+ d +:+ ".geojson" +:+ rest). repeat split; [done|].
    destruct (strip_prefix prefix _) as [s2|] eqn:Hpre.
    2:{ assert (strip_prefix prefix (prefix +:+ d +:+ ".geojson" +:+ rest)
                = Some (d +:+ ".geojson" +:+ rest)) as Heq
          by by apply strip_prefix_Some.
        congruence. }
    apply strip_prefix_Some, (inj (String.app prefix)) in Hpre as <-.
    destruct d as [|c d]; [done|]. simpl in Hd.
    apply andb_prop_elim in Hd as [Hc Hd].
    rewrite app_cons_str. cbv beta iota.
    apply Is_true_true in Hc. rewrite Hc.
    apply star_go_is_Some. exists d, (".geojson" +:+ rest). repeat split; [done|].
    destruct (strip_prefix ".geojson" _) as [r|] eqn:Hext; [done|].
    assert (strip_prefix ".geojson" (".geojson" +:+ rest) = Some rest) as Heq
      by by apply strip_prefix_Some.
    congruence.
Qed.
End regex_facts.

(** ** Facts about the program *)

Section program_facts.
Context `{R : RandomGen}.

(** The directory whose listing [get_scene_ids] asks for. *)
Definition label_dir_uri (self : SpacenetConfig) : string :=
  PyStr.path_join (raw_uri self) [base_dir self; label_dir self].

(** Names for the values [scene_ids] takes in [build_dataset], as functions
    of the discovered ids: after [random.shuffle], after the removal of
    "1000", and the number [num_train_ids] computed from the latter. *)
Definition shuffled (ids : list string) : list string :=
  (shuffle (sorted ids) (seed 5678)).1.

Definition kept (ids : list string) : list string :=
  if bool_decide ("1000" ∈ shuffled ids)
  then list_remove "1000" (shuffled ids)
  else shuffled ids.

Definition num_train_ids (ids : list string) : Z :=
  PyFloat.round
    (PyFloat.mul (PyFloat.of_int (Z.of_nat (length (kept ids)))) PyFloat.lit_0_8).

(** The steps of the split, as [build_dataset] logs them. *)
Definition split_steps (ids : list string) : list event :=
  [EvSeed 5678; EvSorted ids; EvShuffle (sorted ids)]
  ++ (if bool_decide ("1000" ∈ shuffled ids) then [EvRemove "1000"] else [])
  ++ [EvPartition (num_train_ids ids)].

Lemma mapM_match (f : string → option string) l (w : world) :
  mapM (M := Py)
    (λ p, match f p with
          | Some g => mret g
          | None => mthrow AttributeError
          end) l w
  = (match mapM f l with
     | Some ids => Ok ids
     | None => Raise AttributeError
     end, w).
Proof.
  induction l as [|p l IH]; [done|].
  cbn [mapM]. unfold mbind at 1, Py_bind at 1.
  destruct (f p) as [g|]; [|done].
  unfold mret at 1, Py_ret at 1.
  unfold mbind at 1, Py_bind at 1. rewrite IH.
  cbn. by destruct (mapM f l).
Qed.

Lemma get_scene_ids_run self w :
  get_scene_ids self w
  = (match mapM (Re.re_match (label_re (label_fn_prefix self)))
             (listing w (label_dir_uri self) ".geojson") with
     | Some ids => Ok ids
     | None => Raise AttributeError
     end,
     World (listing w) (rng w)
       (trace w ++ [EvListPaths (label_dir_uri self) ".geojson"])).
Proof.
  unfold get_scene_ids, list_paths. unfold mbind at 1, Py_bind at 1.
  by rewrite mapM_match.
Qed.

Lemma build_scene_id task cfg id co vto :
  scene_id (build_scene task cfg id co vto) = id.
Proof. unfold build_scene. by destruct (task_type task). Qed.

Lemma fmap_build_scene_ids task cfg co vto (l : list string) :
  scene_id <$> ((λ id, build_scene task cfg id co vto) <$> l) = l.
Proof.
  rewrite <-list_fmap_compose. rewrite <-(list_fmap_id l) at 2.
  apply list_fmap_ext. intros ? id _. apply build_scene_id.
Qed.

(** A run of [build_dataset] on a non-empty discovery. *)
Lemma build_dataset_run task cfg test vto w ids w1 :
  get_scene_ids cfg w = (Ok ids, w1) →
  ids ≠ [] →
  ∃ d,
    build_dataset task cfg test vto w
    = (Ok d, World (listing w1) (shuffle (sorted ids) (seed 5678)).2
               (trace w1 ++ split_steps ids))
    ∧ train_ids d
      = take (if truthy test then 16%nat
              else length (take (Z.to_nat (num_train_ids ids)) (kept ids)))
          (take (Z.to_nat (num_train_ids ids)) (kept ids))
    ∧ val_ids d
      = take (if truthy test then 4%nat
              else length (drop (Z.to_nat (num_train_ids ids)) (kept ids)))
          (drop (Z.to_nat (num_train_ids ids)) (kept ids)).
Proof.
  intros Hids Hne. unfold build_dataset.
  unfold mbind at 1, Py_bind at 1. rewrite Hids.
  destruct (decide (length ids = 0%nat)) as [Hlen|_].
  { by destruct ids. }
  unfold split_steps, num_train_ids, kept, shuffled.
  unfold mbind, Py_bind, random_seed, random_shuffle, log, mret, Py_ret. cbn.
  destruct (shuffle (sorted ids) (seed 5678)) as [x g'] eqn:Hsh. cbn.
  destruct (bool_decide ("1000" ∈ x)); cbn;
    (eexists; split; [rewrite <-!(assoc_L (++)); reflexivity|]);
    unfold train_ids, val_ids; cbn; by rewrite !fmap_build_scene_ids.
Qed.

(** An empty discovery, and a failed one. *)
Lemma build_dataset_raise task cfg test vto w e w1 :
  get_scene_ids cfg w = (Raise e, w1) →
  build_dataset task cfg test vto w = (Raise e, w1).
Proof.
  intros Hids. unfold build_dataset.
  unfold mbind at 1, Py_bind at 1. by rewrite Hids.
Qed.

Lemma build_dataset_empty task cfg test vto w w1 :
  get_scene_ids cfg w = (Ok [], w1) →
  build_dataset task cfg test vto w = (Raise (ValueError NoScenesFound), w1).
Proof.
  intros Hids. unfold build_dataset.
  unfold mbind at 1, Py_bind at 1. by rewrite Hids.
Qed.
End program_facts.

(** ** Observations and concrete data roots *)

(** What a run of [build_dataset] yields, as far as the split goes: the
    train and validation id sequences, or the exception. *)
Definition split_result `{R : RandomGen} (r : result Dataset * world)
  : result (list string * list string) :=
  match r.1 with
  | Ok d => Ok (train_ids d, val_ids d)
  | Raise e => Raise e
  end.

(** The split in the order of steps the specification gives: sort, remove
    "1000", shuffle with the seeded generator, partition. *)
Definition spec_order_split `{R : RandomGen} (ids : list string)
  : list string * list string :=
  let scene_ids := list_remove "1000" (sorted ids) in
  let scene_ids := (shuffle scene_ids (seed 5678)).1 in
  let num_train_ids :=
    Z.to_nat (PyFloat.round
                (PyFloat.mul (PyFloat.of_int (Z.of_nat (length scene_ids)))
                   PyFloat.lit_0_8)) in
  (take num_train_ids scene_ids, drop num_train_ids scene_ids).

(** A label directory holding the given paths. *)
Definition listing_of (self : SpacenetConfig) (paths : list string)
  : string → string → list string :=
  λ uri ext,
    if (String.eqb uri (label_dir_uri self) && String.eqb ext ".geojson")%bool
    then paths else [].

(** A data root with one well-named label file per id, listed in the order
    of [ids], and CPython's generator in the state [g]. *)
Definition data_root (self : SpacenetConfig) (ids : list string)
    (g : MT19937.state) : world (R := mt19937) :=
  World (R := mt19937) (listing_of self (get_geojson_uri self <$> ids)) g [].

Definition vegas : SpacenetConfig := VegasBuildings "/data".

Definition segmentation : Task :=
  {| task_type := rv.SEMANTIC_SEGMENTATION;
     chip_size := 300;
     classes := get_class_map vegas |}.

(** The ids of the scenario of the specification. *)
Definition scenario_ids : list string := ["3"; "1"; "1000"; "2"; "5"; "4"].

Definition scenario_world : world (R := mt19937) :=
  data_root vegas scenario_ids (MT19937.seed 0).

(** Twenty ids, none of them "1000". *)
Definition twenty_ids : list string :=
  ["1"; "2"; "3"; "4"; "5"; "6"; "7"; "8"; "9"; "10";
   "11"; "12"; "13"; "14"; "15"; "16"; "17"; "18"; "19"; "20"].

(** A label directory that also holds copies of three label files, named
    copy_of_ followed by the name of the original. *)
Definition copies_world : world (R := mt19937) :=
  World (R := mt19937)
    (listing_of vegas
       ((get_geojson_uri vegas <$> ["7"; "1000"; "8"; "9"])
        ++ ((λ id, label_dir_uri vegas +:+ "/copy_of_" +:+ label_fn_prefix vegas
                   +:+ id +:+ ".geojson") <$> ["7"; "1000"; "8"])))
    (MT19937.seed 0) [].

(** ** The claims *)

Lemma list_remove_notin x l : x ∉ l → list_remove x l = l.
Proof.
  induction l as [|y l IH]; simpl; [done|].
  intros Hnin. destruct (decide (y = x)) as [->|?]; [by destruct Hnin; left|].
  f_equal. apply IH. intros ?. apply Hnin. by right.
Qed.

Section split_facts.
Context `{R : RandomGen}.

Lemma shuffled_Permutation ids : shuffled ids ≡ₚ ids.
Proof. unfold shuffled. by rewrite shuffle_Permutation, sorted_Permutation. Qed.

Lemma kept_eq ids : kept ids = list_remove "1000" (shuffled ids).
Proof.
  unfold kept. case_bool_decide; [done|]. by rewrite list_remove_notin.
Qed.

Lemma kept_length ids :
  length (kept ids)
  = (length ids - (if bool_decide ("1000" ∈ ids) then 1 else 0))%nat.
Proof.
  pose proof (shuffled_Permutation ids) as Hperm.
  pose proof (Permutation_length Hperm) as Hlen.
  unfold kept.
  rewrite (bool_decide_ext ("1000" ∈ shuffled ids) ("1000" ∈ ids))
    by by rewrite Hperm.
  case_bool_decide as Hin; [|lia].
  rewrite list_remove_length; [lia|]. by rewrite Hperm.
Qed.

Lemma split_result_run task cfg test vto w ids w1 :
  get_scene_ids cfg w = (Ok ids, w1) →
  ids ≠ [] →
  split_result (build_dataset task cfg test vto w)
  = Ok (take (if truthy test then 16%nat
              else length (take (Z.to_nat (num_train_ids ids)) (kept ids)))
          (take (Z.to_nat (num_train_ids ids)) (kept ids)),
        take (if truthy test then 4%nat
              else length (drop (Z.to_nat (num_train_ids ids)) (kept ids)))
          (drop (Z.to_nat (num_train_ids ids)) (kept ids))).
Proof.
  intros Hids Hne.
  destruct (build_dataset_run task cfg test vto w ids w1 Hids Hne)
    as (d & Hrun & Htrain & Hval).
  unfold split_result. rewrite Hrun. simpl. by rewrite Htrain, Hval.
Qed.
End split_facts.

(** C1, as stated, fails on the scenario of the specification.  With
    CPython's generator, [build_dataset] hands [random.shuffle] the sorted
    list that still holds "1000" and removes "1000" afterwards; the ids it
    returns differ from those of the order sort, remove, shuffle. *)
Lemma C1_counterexample :
  trace (build_dataset segmentation vegas (PyBool false) None scenario_world).2
  = [EvListPaths (label_dir_uri vegas) ".geojson";
     EvSeed 5678;
     EvSorted scenario_ids;
     EvShuffle ["1"; "1000"; "2"; "3"; "4"; "5"];
     EvRemove "1000";
     EvPartition 4]
  ∧ split_result (build_dataset segmentation vegas (PyBool false) None scenario_world)
    = Ok (["3"; "4"; "2"; "1"], ["5"])
  ∧ spec_order_split (R := mt19937) scenario_ids = (["4"; "5"; "3"; "1"], ["2"])
  ∧ split_result (build_dataset segmentation vegas (PyBool false) None scenario_world)
    ≠ Ok (spec_order_split (R := mt19937) scenario_ids)
  ∧ MT19937.exhausted
      (rng (build_dataset segmentation vegas (PyBool false) None scenario_world).2)
    = false.
Proof.
  split; [vm_compute; reflexivity|].
  split; [vm_compute; reflexivity|].
  split; [vm_compute; reflexivity|].
  split; [vm_compute; discriminate|].
  vm_compute; reflexivity.
Qed.

(** C1 (amended): on every non-empty discovery the steps run in the order
    seed, sort, shuffle, remove, partition: [random.shuffle] receives the
    whole sorted list, "1000" included when it was discovered, "1000" is
    removed from the shuffled list, and the split is taken from what is
    left. *)
Theorem C1_shuffle_then_remove `{R : RandomGen} task cfg test vto w ids :
  (get_scene_ids cfg w).1 = Ok ids →
  ids ≠ [] →
  trace (build_dataset task cfg test vto w).2
  = trace w
    ++ [EvListPaths (label_dir_uri cfg) ".geojson";
        EvSeed 5678; EvSorted ids; EvShuffle (sorted ids)]
    ++ (if bool_decide ("1000" ∈ ids) then [EvRemove "1000"] else [])
    ++ [EvPartition (num_train_ids ids)]
  ∧ ∃ train val,
      split_result (build_dataset task cfg test vto w) = Ok (train, val)
      ∧ train `prefix_of`
          take (Z.to_nat (num_train_ids ids))
            (list_remove "1000" (shuffle (sorted ids) (seed 5678)).1)
      ∧ val `prefix_of`
          drop (Z.to_nat (num_train_ids ids))
            (list_remove "1000" (shuffle (sorted ids) (seed 5678)).1)
      ∧ (truthy test = false →
         train ++ val = list_remove "1000" (shuffle (sorted ids) (seed 5678)).1).
Proof.
  intros Hids Hne.
  pose proof (get_scene_ids_run cfg w) as Hrun.
  destruct (get_scene_ids cfg w) as [r w1] eqn:Hget. simpl in Hids. subst r.
  split.
  - destruct (build_dataset_run task cfg test vto w ids w1 Hget Hne)
      as (d & -> & _). cbn. unfold split_steps.
    injection Hrun as _ ->. cbn.
    rewrite (bool_decide_ext ("1000" ∈ shuffled ids) ("1000" ∈ ids))
      by by rewrite shuffled_Permutation.
    by rewrite <-(assoc_L (++)).
  - eexists _, _. split; [by eapply split_result_run|].
    rewrite kept_eq. unfold shuffled.
    split; [apply prefix_take|]. split; [apply prefix_take|].
    intros ->. by rewrite !firstn_all, take_drop.
Qed.

Lemma C1_shuffle_then_remove_witness :
  trace (build_dataset segmentation vegas (PyBool false) None scenario_world).2
  = trace scenario_world
    ++ [EvListPaths (label_dir_uri vegas) ".geojson";
        EvSeed 5678; EvSorted scenario_ids; EvShuffle (sorted scenario_ids)]
    ++ (if bool_decide ("1000" ∈ scenario_ids) then [EvRemove "1000"] else [])
    ++ [EvPartition (num_train_ids (R := mt19937) scenario_ids)]
  ∧ ∃ train val,
      split_result (build_dataset segmentation vegas (PyBool false) None scenario_world)
      = Ok (train, val)
      ∧ train `prefix_of`
          take (Z.to_nat (num_train_ids (R := mt19937) scenario_ids))
            (list_remove "1000"
               (shuffle (R := mt19937) (sorted scenario_ids) (seed 5678)).1)
      ∧ val `prefix_of`
          drop (Z.to_nat (num_train_ids (R := mt19937) scenario_ids))
            (list_remove "1000"
               (shuffle (R := mt19937) (sorted scenario_ids) (seed 5678)).1)
      ∧ (truthy (PyBool false) = false →
         train ++ val
         = list_remove "1000"
             (shuffle (R := mt19937) (sorted scenario_ids) (seed 5678)).1).
Proof.
  apply (C1_shuffle_then_remove (R := mt19937) segmentation vegas (PyBool false)
           None scenario_world scenario_ids).
  - vm_compute. reflexivity.
  - discriminate.
Defined.

(** [exp_main] up to the end of [validate_options] for a target that
    [create] accepts and [validate_options] does not. *)
Lemma exp_main_target_not_exact `{R : RandomGen}
    raw_uri root_uri test test' target task_type vto w :
  str_to_bool test = Ok test' →
  PyStr.lower target ∈ [BUILDINGS; ROADS] →
  PyStr.upper task_type ∈ valid_task_types →
  target ∉ [ROADS; BUILDINGS] →
  exp_main raw_uri root_uri test target task_type vto w
  = (Raise (ValueError (NotAValidTarget target)), w).
Proof.
  intros Htest Hlower Htask Htarget. unfold exp_main.
  rewrite Htest. cbn.
  assert (∃ cfg, create raw_uri target = Ok cfg) as [cfg ->].
  { unfold create. repeat case_decide; eauto.
    apply elem_of_cons in Hlower as [?|Hlower]; [done|].
    by apply list_elem_of_singleton in Hlower. }
  cbn. unfold validate_options.
  rewrite bool_decide_eq_false_2 by (intros Hn; by apply Hn).
  by rewrite bool_decide_eq_true_2.
Qed.

(** C2: [create] accepts the case variants of "buildings" and "roads", but
    [exp_main] then passes the target as given to [validate_options], which
    compares it with the lower-case names: experiment construction raises
    the invalid-target error for "Buildings" and "ROADS", and for every
    target that is a case variant without being all lower-case. *)
Theorem C2_case_variant_rejected `{R : RandomGen} raw_uri root_uri w :
  create raw_uri "Buildings" = Ok (VegasBuildings raw_uri)
  ∧ exp_main raw_uri root_uri (PyBool false) "Buildings" "semantic_segmentation" None w
    = (Raise (ValueError (NotAValidTarget "Buildings")), w)
  ∧ create raw_uri "ROADS" = Ok (VegasRoads raw_uri)
  ∧ exp_main raw_uri root_uri (PyBool false) "ROADS" "semantic_segmentation" None w
    = (Raise (ValueError (NotAValidTarget "ROADS")), w)
  ∧ ∀ target,
      PyStr.lower target ∈ [BUILDINGS; ROADS] →
      target ≠ PyStr.lower target →
      exp_main raw_uri root_uri (PyBool false) target "semantic_segmentation" None w
      = (Raise (ValueError (NotAValidTarget target)), w).
Proof.
  split; [done|]. split; [done|]. split; [done|]. split; [done|].
  intros target Hlower Hne.
  apply (exp_main_target_not_exact _ _ _ (PyBool false)); try done.
  - by left.
  - intros Hin. apply Hne.
    apply elem_of_cons in Hin as [->|Hin]; [done|].
    by apply list_elem_of_singleton in Hin as ->.
Qed.

(** C3, as stated, fails on values that are neither strings nor booleans:
    they are returned, not rejected. *)
Lemma C3_counterexample :
  str_to_bool PyNone = Ok PyNone ∧ str_to_bool (PyInt 1) = Ok (PyInt 1).
Proof. done. Qed.

(** C3 (amended): [str_to_bool] returns [True] for a string that equals
    "true" when lower-cased, [False] for one that equals "false", raises for
    every other string, and returns every value that is not a string
    unchanged, booleans among them. *)
Theorem C3_str_to_bool :
  (∀ s, PyStr.lower s = "true" → str_to_bool (PyStr s) = Ok (PyBool true))
  ∧ (∀ s, PyStr.lower s = "false" → str_to_bool (PyStr s) = Ok (PyBool false))
  ∧ (∀ s, PyStr.lower s ≠ "true" → PyStr.lower s ≠ "false" →
          str_to_bool (PyStr s) = Raise (ValueError (ExpectedTrueOrFalse s)))
  ∧ (∀ b, str_to_bool (PyBool b) = Ok (PyBool b))
  ∧ (∀ x, (∀ s, x ≠ PyStr s) → str_to_bool x = Ok x).
Proof.
  repeat split.
  - intros s Hs. unfold str_to_bool. by rewrite decide_True.
  - intros s Hs. unfold str_to_bool.
    rewrite decide_False by (by rewrite Hs). by rewrite decide_True.
  - intros s Ht Hf. unfold str_to_bool. by rewrite !decide_False.
  - intros [| s | |] Hx; try done. by destruct (Hx s).
Qed.

(** C4: two runs of [build_dataset] that discover the same ids, in any
    order and from any state of the generator, produce the same train and
    validation sequences. *)
Theorem C4_split_deterministic `{R : RandomGen} task cfg test vto w1 w2 ids1 ids2 :
  (get_scene_ids cfg w1).1 = Ok ids1 →
  (get_scene_ids cfg w2).1 = Ok ids2 →
  ids1 ≡ₚ ids2 →
  split_result (build_dataset task cfg test vto w1)
  = split_result (build_dataset task cfg test vto w2).
Proof.
  intros H1 H2 Hperm.
  destruct (get_scene_ids cfg w1) as [r1 w1'] eqn:Hget1. simpl in H1. subst r1.
  destruct (get_scene_ids cfg w2) as [r2 w2'] eqn:Hget2. simpl in H2. subst r2.
  destruct (decide (ids1 = [])) as [->|Hne1].
  - apply Permutation_nil_l in Hperm. subst ids2.
    unfold split_result.
    by rewrite (build_dataset_empty _ _ _ _ _ _ Hget1),
      (build_dataset_empty _ _ _ _ _ _ Hget2).
  - assert (ids2 ≠ []) as Hne2.
    { intros ->. by apply Permutation_nil_r in Hperm. }
    rewrite (split_result_run _ _ _ _ _ _ _ Hget1 Hne1),
      (split_result_run _ _ _ _ _ _ _ Hget2 Hne2).
    unfold num_train_ids, kept, shuffled.
    by rewrite (sorted_unique _ _ Hperm).
Qed.

Lemma C4_split_deterministic_witness :
  split_result
    (build_dataset segmentation vegas (PyBool false) None
       (data_root vegas ["3"; "1"; "1000"; "2"; "5"; "4"] (MT19937.seed 0)))
  = split_result
      (build_dataset segmentation vegas (PyBool false) None
         (data_root vegas ["4"; "5"; "2"; "1000"; "1"; "3"] (MT19937.seed 42))).
Proof.
  apply (C4_split_deterministic (R := mt19937) segmentation vegas (PyBool false) None
           (data_root vegas ["3"; "1"; "1000"; "2"; "5"; "4"] (MT19937.seed 0))
           (data_root vegas ["4"; "5"; "2"; "1000"; "1"; "3"] (MT19937.seed 42))
           ["3"; "1"; "1000"; "2"; "5"; "4"] ["4"; "5"; "2"; "1000"; "1"; "3"]).
  - vm_compute. reflexivity.
  - vm_compute. reflexivity.
  - apply (bool_decide_unpack _). vm_compute. exact I.
Defined.

Lemma list_remove_proper x l1 l2 :
  l1 ≡ₚ l2 → list_remove x l1 ≡ₚ list_remove x l2.
Proof.
  intros Hperm. destruct (decide (x ∈ l1)) as [Hin|Hnin].
  - apply (inj (x ::.)).
    rewrite (list_remove_Permutation x l1 Hin).
    rewrite (list_remove_Permutation x l2); [done|]. by rewrite <-Hperm.
  - rewrite !list_remove_notin; [done| |done]. by rewrite <-Hperm.
Qed.

Section split_properties.
Context `{R : RandomGen}.

(** What is left after the removal is the discovery without one "1000",
    in shuffled order. *)
Lemma kept_Permutation ids : kept ids ≡ₚ list_remove "1000" ids.
Proof.
  rewrite kept_eq. apply list_remove_proper, shuffled_Permutation.
Qed.

Lemma num_train_ids_bounds ids :
  Z.of_nat (length ids) < 2 ^ 53 →
  0 ≤ num_train_ids ids ≤ Z.of_nat (length (kept ids)).
Proof.
  intros Hlen. apply round_mul_0_8_bounds.
  rewrite kept_length. lia.
Qed.

Lemma kept_NoDup ids : NoDup ids → NoDup (kept ids) ∧ "1000" ∉ kept ids.
Proof.
  intros Hnd. rewrite kept_eq. apply list_remove_NoDup.
  by rewrite shuffled_Permutation.
Qed.
End split_properties.

(** C5: without the test flag, [N] being the number of ids left once
    "1000" is removed, the train sequence is the first [round(N * 0.8)] ids
    of the shuffled sequence and the validation sequence is the remaining
    [N - round(N * 0.8)] ids; [kept ids] is that shuffled sequence, the
    discovery without "1000".  Lists are shorter than [2 ^ 53], so that
    their length converts to a float exactly; below [2 ^ 48] the float
    computation gives the integer nearest to four fifths of [N]. *)
Theorem C5_train_count `{R : RandomGen} task cfg test vto w ids :
  truthy test = false →
  (get_scene_ids cfg w).1 = Ok ids →
  ids ≠ [] →
  Z.of_nat (length ids) < 2 ^ 53 →
  ∃ train val,
    split_result (build_dataset task cfg test vto w) = Ok (train, val)
    ∧ kept ids ≡ₚ list_remove "1000" ids
    ∧ length (kept ids)
      = (length ids - (if bool_decide ("1000" ∈ ids) then 1 else 0))%nat
    ∧ Z.of_nat (length train)
      = PyFloat.round
          (PyFloat.mul
             (PyFloat.of_int
                (Z.of_nat
                   (length ids - (if bool_decide ("1000" ∈ ids) then 1 else 0))))
             PyFloat.lit_0_8)
    ∧ length val
      = (length ids - (if bool_decide ("1000" ∈ ids) then 1 else 0)
         - length train)%nat
    ∧ train = take (length train) (kept ids)
    ∧ val = drop (length train) (kept ids)
    ∧ (Z.of_nat (length ids) < 2 ^ 48 →
       Z.of_nat (length train)
       = (8 * Z.of_nat
                (length ids - (if bool_decide ("1000" ∈ ids) then 1 else 0))
          + 5) / 10).
Proof.
  intros Htest Hids Hne Hlen.
  destruct (get_scene_ids cfg w) as [r w1] eqn:Hget. simpl in Hids. subst r.
  pose proof (num_train_ids_bounds ids Hlen) as Hk.
  pose proof (kept_length ids) as HN.
  eexists _, _. split; [by eapply split_result_run|].
  rewrite Htest, !firstn_all.
  rewrite length_take_le by lia.
  split; [apply kept_Permutation|]. split; [done|].
  split; [rewrite <-HN; unfold num_train_ids in *; lia|].
  split; [rewrite length_drop; lia|].
  split; [done|]. split; [done|].
  intros Hlen'. rewrite <-HN, <-round_mul_0_8_nearest by lia.
  unfold num_train_ids in *. lia.
Qed.

Lemma C5_train_count_witness :
  ∃ train val,
    split_result
      (build_dataset segmentation vegas (PyBool false) None scenario_world)
    = Ok (train, val)
    ∧ kept (R := mt19937) scenario_ids ≡ₚ list_remove "1000" scenario_ids
    ∧ length (kept (R := mt19937) scenario_ids)
      = (length scenario_ids
         - (if bool_decide ("1000" ∈ scenario_ids) then 1 else 0))%nat
    ∧ Z.of_nat (length train)
      = PyFloat.round
          (PyFloat.mul
             (PyFloat.of_int
                (Z.of_nat
                   (length scenario_ids
                    - (if bool_decide ("1000" ∈ scenario_ids) then 1 else 0))))
             PyFloat.lit_0_8)
    ∧ length val
      = (length scenario_ids
         - (if bool_decide ("1000" ∈ scenario_ids) then 1 else 0)
         - length train)%nat
    ∧ train = take (length train) (kept (R := mt19937) scenario_ids)
    ∧ val = drop (length train) (kept (R := mt19937) scenario_ids)
    ∧ (Z.of_nat (length scenario_ids) < 2 ^ 48 →
       Z.of_nat (length train)
       = (8 * Z.of_nat
                (length scenario_ids
                 - (if bool_decide ("1000" ∈ scenario_ids) then 1 else 0))
          + 5) / 10).
Proof.
  apply (C5_train_count (R := mt19937) segmentation vegas (PyBool false) None
           scenario_world scenario_ids).
  - reflexivity.
  - vm_compute. reflexivity.
  - discriminate.
  - vm_compute. reflexivity.
Defined.

(** C6, as stated, fails when two listed files carry the same id:
    [list.remove] takes out one "1000" only, and an id that was discovered
    twice can land on both sides of the split. *)
Lemma C6_counterexample :
  (get_scene_ids vegas copies_world).1
  = Ok ["7"; "1000"; "8"; "9"; "7"; "1000"; "8"]
  ∧ split_result (build_dataset segmentation vegas (PyBool false) None copies_world)
    = Ok (["7"; "8"; "9"; "7"; "1000"], ["8"])
  ∧ MT19937.exhausted
      (rng (build_dataset segmentation vegas (PyBool false) None copies_world).2)
    = false.
Proof.
  split; [vm_compute; reflexivity|].
  split; vm_compute; reflexivity.
Qed.

(** C6 (amended): when the discovered ids are pairwise distinct, in either
    mode the train and validation sequences have no id in common, every id
    in them is a discovered id other than "1000", "1000" is in neither, and
    together they are not longer than the discovery. *)
Theorem C6_split_invariants `{R : RandomGen} task cfg test vto w ids :
  (get_scene_ids cfg w).1 = Ok ids →
  ids ≠ [] →
  NoDup ids →
  ∃ train val,
    split_result (build_dataset task cfg test vto w) = Ok (train, val)
    ∧ (∀ x, x ∈ train → x ∉ val)
    ∧ (∀ x, x ∈ train ++ val → x ∈ ids ∧ x ≠ "1000")
    ∧ ("1000" ∉ train)
    ∧ ("1000" ∉ val)
    ∧ (length train + length val ≤ length ids)%nat.
Proof.
  intros Hids Hne Hnd.
  destruct (get_scene_ids cfg w) as [r w1] eqn:Hget. simpl in Hids. subst r.
  eexists _, _. split; [by eapply split_result_run|].
  destruct (kept_NoDup ids Hnd) as [HndK HninK].
  set (k := Z.to_nat (num_train_ids ids)) in *.
  set (a := if truthy test then 16%nat else length (take k (kept ids))).
  set (b := if truthy test then 4%nat else length (drop k (kept ids))).
  assert (take a (take k (kept ids)) ⊆ take k (kept ids)) as Ha
    by apply subseteq_take.
  assert (take b (drop k (kept ids)) ⊆ drop k (kept ids)) as Hb
    by apply subseteq_take.
  assert (take k (kept ids) ⊆ kept ids) as Hk by apply subseteq_take.
  assert (drop k (kept ids) ⊆ kept ids) as Hd by apply subseteq_drop.
  assert (kept ids ⊆ ids) as Hsub.
  { intros x Hx. rewrite kept_Permutation in Hx.
    by apply list_remove_subseteq in Hx. }
  rewrite <-(take_drop k (kept ids)) in HndK.
  apply NoDup_app in HndK as (_ & Hdisj & _).
  split; [|split; [|split; [|split]]].
  - intros x Hx Hx'. apply (Hdisj x); auto.
  - intros x [Hx|Hx]%elem_of_app; (split; [auto|intros ->; apply HninK; auto]).
  - intros Hx. apply HninK. auto.
  - intros Hx. apply HninK. auto.
  - pose proof (Permutation_length (kept_Permutation ids)) as Hlen.
    pose proof (kept_length ids) as HlenK.
    rewrite !length_take, length_drop. lia.
Qed.

Lemma C6_split_invariants_witness :
  ∃ train val,
    split_result (build_dataset segmentation vegas (PyBool true) None scenario_world)
    = Ok (train, val)
    ∧ (∀ x, x ∈ train → x ∉ val)
    ∧ (∀ x, x ∈ train ++ val → x ∈ scenario_ids ∧ x ≠ "1000")
    ∧ ("1000" ∉ train)
    ∧ ("1000" ∉ val)
    ∧ (length train + length val ≤ length scenario_ids)%nat.
Proof.
  apply (C6_split_invariants (R := mt19937) segmentation vegas (PyBool true) None
           scenario_world scenario_ids).
  - vm_compute. reflexivity.
  - discriminate.
  - apply (bool_decide_unpack _). vm_compute. exact I.
Defined.

(** C7: in test mode with twenty discovered ids, none of them "1000", the
    train sequence has exactly 16 ids and the validation sequence exactly
    4, and each is a prefix of the sequence that the run without the test
    flag produces. *)
Theorem C7_test_mode_twenty `{R : RandomGen} task cfg test vto w ids :
  truthy test = true →
  (get_scene_ids cfg w).1 = Ok ids →
  length ids = 20%nat →
  "1000" ∉ ids →
  ∃ train val train0 val0,
    split_result (build_dataset task cfg test vto w) = Ok (train, val)
    ∧ split_result (build_dataset task cfg (PyBool false) vto w) = Ok (train0, val0)
    ∧ length train = 16%nat
    ∧ length val = 4%nat
    ∧ train `prefix_of` train0
    ∧ val `prefix_of` val0.
Proof.
  intros Htest Hids Hlen Hnin.
  destruct (get_scene_ids cfg w) as [r w1] eqn:Hget. simpl in Hids. subst r.
  assert (ids ≠ []) as Hne by (by intros ->).
  assert (length (kept ids) = 20%nat) as HlenK.
  { rewrite kept_length, bool_decide_eq_false_2 by done. lia. }
  assert (Z.to_nat (num_train_ids ids) = 16%nat) as Hk.
  { unfold num_train_ids. rewrite HlenK. vm_compute. reflexivity. }
  eexists _, _, _, _.
  split; [by eapply split_result_run|].
  split; [by eapply split_result_run|].
  rewrite Htest, Hk. cbn [truthy]. rewrite !firstn_all.
  rewrite !length_take, length_drop, HlenK.
  split; [lia|]. split; [lia|]. split; apply prefix_take.
Qed.

Lemma C7_test_mode_twenty_witness :
  ∃ train val train0 val0,
    split_result
      (build_dataset segmentation vegas (PyBool true) None
         (data_root vegas twenty_ids (MT19937.seed 0)))
    = Ok (train, val)
    ∧ split_result
        (build_dataset segmentation vegas (PyBool false) None
           (data_root vegas twenty_ids (MT19937.seed 0)))
      = Ok (train0, val0)
    ∧ length train = 16%nat
    ∧ length val = 4%nat
    ∧ train `prefix_of` train0
    ∧ val `prefix_of` val0.
Proof.
  apply (C7_test_mode_twenty (R := mt19937) segmentation vegas (PyBool true) None
           (data_root vegas twenty_ids (MT19937.seed 0)) twenty_ids).
  - reflexivity.
  - vm_compute. reflexivity.
  - reflexivity.
  - apply (bool_decide_unpack _). vm_compute. exact I.
Defined.

(** C8: when discovery returns no id, [build_dataset] raises the
    no-scenes [ValueError] at once: the generator is as it was, and the
    only step on the trace is the directory listing; nothing was seeded,
    sorted, shuffled or partitioned. *)
Theorem C8_no_scenes `{R : RandomGen} task cfg test vto w :
  (get_scene_ids cfg w).1 = Ok [] →
  build_dataset task cfg test vto w
  = (Raise (ValueError NoScenesFound),
     World (listing w) (rng w)
       (trace w ++ [EvListPaths (label_dir_uri cfg) ".geojson"])).
Proof.
  intros Hids. pose proof (get_scene_ids_run cfg w) as Hrun.
  destruct (get_scene_ids cfg w) as [r w1] eqn:Hget. simpl in Hids. subst r.
  rewrite (build_dataset_empty _ _ _ _ _ _ Hget).
  by injection Hrun as _ ->.
Qed.

Lemma C8_no_scenes_witness :
  build_dataset segmentation vegas (PyBool false) None
    (data_root vegas [] (MT19937.seed 0))
  = (Raise (ValueError NoScenesFound),
     World (listing (data_root vegas [] (MT19937.seed 0)))
       (rng (data_root vegas [] (MT19937.seed 0)))
       (trace (data_root vegas [] (MT19937.seed 0))
        ++ [EvListPaths (label_dir_uri vegas) ".geojson"])).
Proof.
  apply (C8_no_scenes (R := mt19937) segmentation vegas (PyBool false) None
           (data_root vegas [] (MT19937.seed 0))).
  vm_compute. reflexivity.
Defined.

(** C9: for the target "roads" and a task type that is object detection
    once upper-cased, [exp_main] raises, and the world it raises in is the
    one it started in: nothing was listed, seeded or shuffled.  With a
    test flag that [str_to_bool] accepts, the exception is the one for an
    invalid task type for roads. *)
Theorem C9_roads_object_detection `{R : RandomGen}
    raw_uri root_uri test task_type vto w :
  PyStr.upper task_type = rv.name rv.OBJECT_DETECTION →
  (∃ e, exp_main raw_uri root_uri test "roads" task_type vto w = (Raise e, w))
  ∧ (∀ test', str_to_bool test = Ok test' →
       exp_main raw_uri root_uri test "roads" task_type vto w
       = (Raise (ValueError (NotValidForRoads (rv.name rv.OBJECT_DETECTION))), w)).
Proof.
  intros Htask.
  assert (∀ test', str_to_bool test = Ok test' →
            exp_main raw_uri root_uri test "roads" task_type vto w
            = (Raise (ValueError (NotValidForRoads (rv.name rv.OBJECT_DETECTION))), w))
    as Hok.
  { intros test' Htest. unfold exp_main. rewrite Htest, Htask. done. }
  split; [|done].
  destruct (str_to_bool test) as [test'|e] eqn:Htest; [by eauto|].
  exists e. unfold exp_main. by rewrite Htest.
Qed.

Lemma C9_roads_object_detection_witness :
  (∃ e, exp_main "/data" "/out" (PyStr "False") "roads" "object_detection" None
          scenario_world
        = (Raise e, scenario_world))
  ∧ (∀ test', str_to_bool (PyStr "False") = Ok test' →
       exp_main "/data" "/out" (PyStr "False") "roads" "object_detection" None
         scenario_world
       = (Raise (ValueError (NotValidForRoads (rv.name rv.OBJECT_DETECTION))),
          scenario_world)).
Proof.
  apply (C9_roads_object_detection (R := mt19937) "/data" "/out" (PyStr "False")
           "object_detection" None scenario_world).
  reflexivity.
Defined.

(** C10: on a listing of ASCII paths, [get_scene_ids] returns a list of ids
    exactly when every listed path matches the pattern; when some listed
    path does not, it raises [AttributeError], not the [ValueError] of an
    empty discovery.  A directory holding a file named README.geojson is
    such an input. *)
Theorem C10_get_scene_ids_unguarded `{R : RandomGen} self w :
  Forall is_ascii (listing w (label_dir_uri self) ".geojson") →
  ((∃ ids, (get_scene_ids self w).1 = Ok ids)
   ↔ Forall (matches_label_pattern (label_fn_prefix self))
       (listing w (label_dir_uri self) ".geojson"))
  ∧ (¬ Forall (matches_label_pattern (label_fn_prefix self))
         (listing w (label_dir_uri self) ".geojson")
     → (get_scene_ids self w).1 = Raise AttributeError)
  ∧ PyStr.endswith (label_dir_uri vegas +:+ "/README.geojson") ".geojson" = true
  ∧ (get_scene_ids vegas
       (World (listing_of vegas [label_dir_uri vegas +:+ "/README.geojson"])
          (seed 0) [])).1
    = Raise AttributeError
  ∧ (build_dataset segmentation vegas (PyBool false) None
       (World (listing_of vegas [label_dir_uri vegas +:+ "/README.geojson"])
          (seed 0) [])).1
    = Raise AttributeError.
Proof.
  intros _. rewrite get_scene_ids_run. cbn [fst].
  set (f := Re.re_match (label_re (label_fn_prefix self))).
  set (l := listing w (label_dir_uri self) ".geojson").
  assert (is_Some (mapM f l)
          ↔ Forall (matches_label_pattern (label_fn_prefix self)) l) as Hiff.
  { rewrite mapM_is_Some. apply Forall_proper; [|done].
    intros p. apply re_match_label_re. }
  split; [|split; [|split; [|split]]].
  - rewrite <-Hiff. destruct (mapM f l) as [ids|].
    + split; [by eauto|]. intros _. by exists ids.
    + split; [by intros [ids ?]|]. by intros [? ?].
  - rewrite <-Hiff. destruct (mapM f l) as [ids|]; [|done].
    intros Hn. destruct Hn. by eauto.
  - vm_compute. reflexivity.
  - rewrite get_scene_ids_run. vm_compute. reflexivity.
  - erewrite build_dataset_raise; [reflexivity|].
    rewrite get_scene_ids_run. by f_equal.
Qed.

Lemma C10_get_scene_ids_unguarded_witness :
  ((∃ ids,
      (get_scene_ids vegas
         (World (R := mt19937) (listing_of vegas [label_dir_uri vegas +:+ "/README.geojson"])
            (seed 0) [])).1
      = Ok ids)
   ↔ Forall (matches_label_pattern (label_fn_prefix vegas))
       (listing
          (World (R := mt19937) (listing_of vegas [label_dir_uri vegas +:+ "/README.geojson"])
             (seed 0) [])
          (label_dir_uri vegas) ".geojson"))
  ∧ (¬ Forall (matches_label_pattern (label_fn_prefix vegas))
         (listing
            (World (R := mt19937) (listing_of vegas [label_dir_uri vegas +:+ "/README.geojson"])
               (seed 0) [])
            (label_dir_uri vegas) ".geojson")
     → (get_scene_ids vegas
          (World (R := mt19937) (listing_of vegas [label_dir_uri vegas +:+ "/README.geojson"])
             (seed 0) [])).1
       = Raise AttributeError)
  ∧ PyStr.endswith (label_dir_uri vegas +:+ "/README.geojson") ".geojson" = true
  ∧ (get_scene_ids vegas
       (World (R := mt19937) (listing_of vegas [label_dir_uri vegas +:+ "/README.geojson"])
          (seed 0) [])).1
    = Raise AttributeError
  ∧ (build_dataset segmentation vegas (PyBool false) None
       (World (R := mt19937) (listing_of vegas [label_dir_uri vegas +:+ "/README.geojson"])
          (seed 0) [])).1
    = Raise AttributeError.
Proof.
  apply (C10_get_scene_ids_unguarded (R := mt19937) vegas
           (World (R := mt19937) (listing_of vegas [label_dir_uri vegas +:+ "/README.geojson"])
              (seed 0) [])).
  apply (bool_decide_unpack _). vm_compute. exact I.
Defined.

(** ** Further properties of the code *)

(** *** Strings *)

Lemma app_assoc_str (a b c : string) : (a +:+ b) +:+ c = a +:+ b +:+ c.
Proof.
  induction a as [|x a IH]; [done|].
  rewrite !app_cons_str. by rewrite IH.
Qed.

Lemma length_app_str (a b : string) :
  String.length (a +:+ b) = (String.length a + String.length b)%nat.
Proof.
  induction a as [|x a IH]; [done|].
  rewrite app_cons_str. simpl. by rewrite IH.
Qed.

Lemma app_inj_length_str (a b c d : string) :
  String.length a = String.length b → a +:+ c = b +:+ d → a = b ∧ c = d.
Proof.
  revert b. induction a as [|x a IH]; intros [|y b] Hlen; try done.
  rewrite !app_cons_str. intros [= -> Heq].
  destruct (IH b) as [-> ->]; [by injection Hlen|done|done].
Qed.

Lemma app_inj_r_str (a b c : string) : a +:+ c = b +:+ c → a = b.
Proof.
  intros Heq. apply (app_inj_length_str a b c c); [|done].
  apply (f_equal String.length) in Heq. rewrite !length_app_str in Heq. lia.
Qed.

Lemma all_chars_app cls (a b : string) :
  all_chars cls (a +:+ b) = all_chars cls a && all_chars cls b.
Proof.
  induction a as [|x a IH]; [done|].
  rewrite app_cons_str. simpl. rewrite IH. by rewrite andb_assoc.
Qed.

Lemma take_str_app (a b : string) : Re.take_str (String.length a) (a +:+ b) = a.
Proof.
  induction a as [|x a IH]; [by destruct b|].
  rewrite app_cons_str. simpl. by rewrite IH.
Qed.

Lemma consumed_app (a b : string) : Re.consumed (a +:+ b) b = a.
Proof.
  unfold Re.consumed. rewrite length_app_str.
  replace (String.length a + String.length b - String.length b)%nat
    with (String.length a) by lia.
  apply take_str_app.
Qed.

(** *** The matcher: what a greedy repetition returns *)

(** [k] fails at every position after the first character of [t]. *)
Fixpoint later_fail {X} (k : string → option X) (t : string) : Prop :=
  match t with
  | EmptyString => True
  | String _ t' => k t' = None ∧ later_fail k t'
  end.

Section greedy_facts.
Import Re.
Context {X : Type}.
Implicit Types k : string → option X.

Lemma star_go_Some cls s k m :
  star_go cls s k = Some m →
  ∃ a b, s = a +:+ b ∧ all_chars cls a ∧ k b = Some m.
Proof.
  induction s as [|c s IH]; simpl.
  - intros Hk. by exists "", "".
  - destruct (cls c) eqn:Hc; [|intros Hk; by exists "", (String c s)].
    destruct (star_go cls s k) as [m'|] eqn:Hgo.
    + intros [= <-]. destruct (IH eq_refl) as (a & b & -> & Ha & Hk).
      exists (String c a), b. simpl. rewrite Hc. done.
    + intros Hk. by exists "", (String c s).
Qed.

(** A repetition goes past characters of its class when the rest matches
    further on. *)
Lemma star_go_skip cls a t k m :
  all_chars cls a → star_go cls t k = Some m → star_go cls (a +:+ t) k = Some m.
Proof.
  intros Ha Ht. induction a as [|c a IH]; [done|].
  simpl in Ha. apply andb_prop_elim in Ha as [Hc Ha].
  rewrite app_cons_str. simpl. apply Is_true_true in Hc. rewrite Hc.
  by rewrite (IH Ha).
Qed.

(** It stops at once when the rest matches nowhere later. *)
Lemma star_go_first cls t k : later_fail k t → star_go cls t k = k t.
Proof.
  induction t as [|c t IH]; [done|].
  intros [Hk Hlater]. simpl. destruct (cls c); [|done].
  by rewrite (IH Hlater), Hk.
Qed.
End greedy_facts.

Section label_re_facts.
Import Re.

(** The id that [match] captures is the run of digits between an
    occurrence of the prefix and the extension. *)
Lemma re_match_label_re_group prefix path g :
  re_match (label_re prefix) path = Some g →
  ∃ a rest,
    path = a +:+ prefix +:+ g +:+ ".geojson" +:+ rest
    ∧ all_chars dot a ∧ g ≠ "" ∧ all_chars digit g.
Proof.
  unfold re_match, label_re. cbn [run].
  intros (a & b & -> & Ha & Hk)%star_go_Some.
  destruct (strip_prefix prefix b) as [s2|] eqn:Hpre; [|done].
  apply strip_prefix_Some in Hpre as ->.
  destruct s2 as [|c s3]; [done|].
  destruct (digit c) eqn:Hc; [|done].
  apply star_go_Some in Hk as (d & e & -> & Hd & Hk).
  destruct (strip_prefix ".geojson" e) as [rest|] eqn:Hext; [|done].
  apply strip_prefix_Some in Hext as ->.
  injection Hk as <-.
  assert (consumed (String c (d +:+ ".geojson" +:+ rest)) (".geojson" +:+ rest)
          = String c d) as ->
    by (rewrite <-app_cons_str; apply consumed_app).
  exists a, rest. split; [by rewrite <-app_cons_str|].
  split; [done|]. split; [done|]. simpl. by rewrite Hc.
Qed.

Lemma later_fail_head {X} c0 p' (F : string → option X) t x :
  all_chars (λ c, negb (bool_decide (c = c0))) t →
  later_fail
    (λ s, match strip_prefix (String c0 p') s with
          | Some s' => F s'
          | None => None
          end)
    (String x t).
Proof.
  revert x. induction t as [|c t IH]; intros x Ht; [done|].
  simpl in Ht. apply andb_prop_elim in Ht as [Hc Ht].
  apply negb_prop_elim in Hc. rewrite bool_decide_spec in Hc.
  split; [|by apply IH].
  simpl. by rewrite decide_False by (by intros ->).
Qed.

(** On a path that ends with the prefix, an id and the extension, [match]
    captures that id, whatever text without a newline comes first. *)
Lemma re_match_label_re_file c0 p' a id :
  all_chars (λ c, negb (bool_decide (c = c0))) (p' +:+ ".geojson") →
  digit c0 = false →
  all_chars dot a →
  id ≠ "" →
  all_chars digit id →
  re_match (label_re (String c0 p')) (a +:+ String c0 p' +:+ id +:+ ".geojson")
  = Some id.
Proof.
  intros Hp Hc0 Ha Hne Hid.
  unfold re_match, label_re. cbn [run].
  apply star_go_skip; [done|].
  rewrite app_cons_str. erewrite star_go_first.
  2:{ apply later_fail_head.
      rewrite all_chars_app in Hp. apply andb_prop_elim in Hp as [Hp' Hext].
      rewrite !all_chars_app. apply andb_prop_intro. split; [done|].
      apply andb_prop_intro. split; [|done].
      clear Hne. induction id as [|c id IH]; [done|].
      simpl in Hid |- *. apply andb_prop_elim in Hid as [Hc Hid].
      apply andb_prop_intro. split; [|by apply IH].
      apply negb_prop_intro. rewrite bool_decide_spec. intros ->.
      apply Is_true_true in Hc. congruence. }
  rewrite <-app_cons_str.
  assert (strip_prefix (String c0 p') (String c0 p' +:+ id +:+ ".geojson")
          = Some (id +:+ ".geojson")) as -> by by apply strip_prefix_Some.
  destruct id as [|c id]; [done|].
  simpl in Hid. apply andb_prop_elim in Hid as [Hc Hid].
  rewrite app_cons_str. cbv beta iota.
  apply Is_true_true in Hc. rewrite Hc.
  rewrite <-app_cons_str.
  apply star_go_skip; [done|].
  assert (strip_prefix ".geojson" ".geojson" = Some "") as Hext by done.
  cbn [star_go]. change (digit ".") with false. cbv beta iota.
  rewrite Hext. f_equal.
  by rewrite <-(consumed_app (String c id) ".geojson") at 2.
Qed.
End label_re_facts.

(** *** Paths *)

(** What [os.path.join] puts in front of a last component that does not
    start with a slash. *)
Definition dir_prefix (dir : string) : string :=
  if decide (dir = "") then ""
  else if PyStr.endswith dir "/" then dir
  else dir +:+ "/".

(** The directory of the rasters, as [label_dir_uri] is that of the labels. *)
Definition raster_dir_uri (self : SpacenetConfig) : string :=
  PyStr.path_join (raw_uri self) [base_dir self; raster_dir self].

Lemma join2_file dir c r :
  c ≠ "/"%char → PyStr.join2 dir (String c r) = dir_prefix dir +:+ String c r.
Proof.
  intros Hc. unfold PyStr.join2, dir_prefix. simpl.
  rewrite decide_False by (by intros <-).
  destruct (decide (dir = "")); [done|].
  destruct (PyStr.endswith dir "/"); [done|].
  by rewrite app_assoc_str.
Qed.

Lemma all_chars_join2 cls dir b :
  cls "/"%char = true →
  all_chars cls dir → all_chars cls b → all_chars cls (PyStr.join2 dir b).
Proof.
  intros Hs Hd Hb. unfold PyStr.join2.
  repeat case_match; try done;
    rewrite ?all_chars_app; simpl; rewrite ?Hs; simpl;
    repeat (apply andb_prop_intro; split); done.
Qed.

Lemma all_chars_dir_prefix cls dir :
  cls "/"%char = true → all_chars cls dir → all_chars cls (dir_prefix dir).
Proof.
  intros Hs Hd. unfold dir_prefix. repeat case_match; try done.
  rewrite all_chars_app. simpl. rewrite Hs.
  by apply andb_prop_intro.
Qed.

Lemma create_cases raw target cfg :
  create raw target = Ok cfg →
  (PyStr.lower target = BUILDINGS ∧ cfg = VegasBuildings raw)
  ∨ (PyStr.lower target = ROADS ∧ cfg = VegasRoads raw).
Proof.
  unfold create. repeat case_decide; intros [= <-]; auto.
Qed.

(** The two uris of a scene, for a configuration that [create] returns:
    directory, file name prefix, id, extension. *)
Lemma get_geojson_uri_parts raw target cfg id :
  create raw target = Ok cfg →
  get_geojson_uri cfg id
  = dir_prefix (label_dir_uri cfg) +:+ label_fn_prefix cfg +:+ id +:+ ".geojson".
Proof.
  intros [[_ ->]|[_ ->]]%create_cases;
    unfold get_geojson_uri, label_dir_uri, PyStr.path_join; cbn [foldl];
    cbn [label_fn_prefix VegasBuildings VegasRoads];
    rewrite app_cons_str; by rewrite join2_file.
Qed.

Lemma get_raster_source_uri_parts raw target cfg id :
  create raw target = Ok cfg →
  get_raster_source_uri cfg id
  = dir_prefix (raster_dir_uri cfg) +:+ raster_fn_prefix cfg +:+ id +:+ ".tif".
Proof.
  intros [[_ ->]|[_ ->]]%create_cases;
    unfold get_raster_source_uri, raster_dir_uri, PyStr.path_join; cbn [foldl];
    cbn [raster_fn_prefix VegasBuildings VegasRoads];
    rewrite app_cons_str; by rewrite join2_file.
Qed.

Lemma label_dir_uri_no_newline raw target cfg :
  create raw target = Ok cfg →
  all_chars Re.dot raw → all_chars Re.dot (dir_prefix (label_dir_uri cfg)).
Proof.
  intros [[_ ->]|[_ ->]]%create_cases Hraw;
    apply all_chars_dir_prefix; [done| |done|];
    unfold label_dir_uri, PyStr.path_join; cbn [foldl];
    (apply all_chars_join2; [done| |done]);
    by apply all_chars_join2.
Qed.

(** A string of one or more decimal digits. *)
Definition is_scene_number (id : string) : Prop :=
  id ≠ "" ∧ all_chars Re.digit id.

Lemma re_match_geojson_uri raw target cfg id :
  create raw target = Ok cfg →
  all_chars Re.dot raw →
  is_scene_number id →
  Re.re_match (label_re (label_fn_prefix cfg)) (get_geojson_uri cfg id) = Some id.
Proof.
  intros Hcfg Hraw [Hne Hid].
  rewrite (get_geojson_uri_parts _ _ _ _ Hcfg).
  pose proof (label_dir_uri_no_newline _ _ _ Hcfg Hraw) as Hdir.
  apply create_cases in Hcfg as [[_ ->]|[_ ->]];
    cbn [label_fn_prefix VegasBuildings VegasRoads];
    by apply re_match_label_re_file.
Qed.

Global Instance is_scene_number_dec id : Decision (is_scene_number id).
Proof. unfold is_scene_number. apply _. Defined.

(** X1: discovery gives back the ids of the label files.  For a
    configuration that [create] returns and a data root whose name holds no
    newline, if the label directory lists the files that [get_geojson_uri]
    names for a list of scene numbers, [get_scene_ids] returns these numbers,
    in the order of the listing. *)
Theorem X1_discovery_round_trip `{R : RandomGen} raw target cfg ids w :
  create raw target = Ok cfg →
  all_chars Re.dot raw →
  Forall is_scene_number ids →
  listing w (label_dir_uri cfg) ".geojson" = get_geojson_uri cfg <$> ids →
  (get_scene_ids cfg w).1 = Ok ids.
Proof.
  intros Hcfg Hraw Hids Hlist.
  rewrite get_scene_ids_run, Hlist. cbn [fst].
  rewrite mapM_fmap_Forall_Some; [done|].
  eapply Forall_impl; [exact Hids|].
  intros id Hid. by eapply re_match_geojson_uri.
Qed.

Lemma X1_discovery_round_trip_witness :
  (get_scene_ids vegas scenario_world).1 = Ok scenario_ids.
Proof.
  apply (X1_discovery_round_trip (R := mt19937) "/data" "Buildings" vegas
           scenario_ids scenario_world).
  - reflexivity.
  - exact I.
  - apply (bool_decide_unpack _). vm_compute. exact I.
  - vm_compute. reflexivity.
Defined.

(** X2: on a listing of ASCII paths, every id that [get_scene_ids] returns
    is a non-empty string of the digits 0-9, and the ids correspond one to
    one, in order, to the listed paths: each is the text between the file
    name prefix and the extension in its path. *)
Theorem X2_discovered_ids_are_numbers `{R : RandomGen} cfg w ids :
  Forall is_ascii (listing w (label_dir_uri cfg) ".geojson") →
  (get_scene_ids cfg w).1 = Ok ids →
  Forall2
    (λ path id,
       is_scene_number id
       ∧ ∃ a rest,
           path = a +:+ label_fn_prefix cfg +:+ id +:+ ".geojson" +:+ rest
           ∧ all_chars Re.dot a)
    (listing w (label_dir_uri cfg) ".geojson") ids.
Proof.
  intros _. rewrite get_scene_ids_run. cbn [fst].
  destruct (mapM _ _) as [ids'|] eqn:HmapM; [|done].
  intros [= <-]. apply mapM_Some_1 in HmapM.
  eapply Forall2_impl; [exact HmapM|].
  intros path id (a & rest & -> & Ha & Hne & Hid)%re_match_label_re_group.
  split; [done|]. by exists a, rest.
Qed.

Lemma X2_discovered_ids_are_numbers_witness :
  Forall2
    (λ path id,
       is_scene_number id
       ∧ ∃ a rest,
           path = a +:+ label_fn_prefix vegas +:+ id +:+ ".geojson" +:+ rest
           ∧ all_chars Re.dot a)
    (listing copies_world (label_dir_uri vegas) ".geojson")
    ["7"; "1000"; "8"; "9"; "7"; "1000"; "8"].
Proof.
  apply (X2_discovered_ids_are_numbers (R := mt19937) vegas copies_world).
  - apply (bool_decide_unpack _). vm_compute. exact I.
  - vm_compute. reflexivity.
Defined.

(** X3: for a configuration that [create] returns, different ids have
    different raster uris and different label uris. *)
Theorem X3_scene_uris_injective raw target cfg id1 id2 :
  create raw target = Ok cfg →
  (get_raster_source_uri cfg id1 = get_raster_source_uri cfg id2 → id1 = id2)
  ∧ (get_geojson_uri cfg id1 = get_geojson_uri cfg id2 → id1 = id2).
Proof.
  intros Hcfg.
  rewrite !(get_raster_source_uri_parts _ _ _ _ Hcfg),
    !(get_geojson_uri_parts _ _ _ _ Hcfg).
  split; intros Heq;
    apply (inj (String.app _)), (inj (String.app _)) in Heq;
    by apply app_inj_r_str in Heq.
Qed.

Lemma X3_scene_uris_injective_witness :
  (get_raster_source_uri (VegasRoads "s3://bucket") "12"
   = get_raster_source_uri (VegasRoads "s3://bucket") "120" → "12" = "120")
  ∧ (get_geojson_uri (VegasRoads "s3://bucket") "12"
     = get_geojson_uri (VegasRoads "s3://bucket") "120" → "12" = "120").
Proof.
  apply (X3_scene_uris_injective "s3://bucket" "ROADS").
  reflexivity.
Defined.

(** X4: without the test flag no scene is lost or used twice: the train
    sequence followed by the validation sequence is a rearrangement of the
    discovered ids with one "1000" taken out. *)
Theorem X4_split_covers_discovery `{R : RandomGen} task cfg test vto w ids :
  truthy test = false →
  (get_scene_ids cfg w).1 = Ok ids →
  ids ≠ [] →
  ∃ train val,
    split_result (build_dataset task cfg test vto w) = Ok (train, val)
    ∧ train ++ val ≡ₚ list_remove "1000" ids.
Proof.
  intros Htest Hids Hne.
  destruct (get_scene_ids cfg w) as [r w1] eqn:Hget. simpl in Hids. subst r.
  eexists _, _. split; [by eapply split_result_run|].
  rewrite Htest, !firstn_all, take_drop. apply kept_Permutation.
Qed.

Lemma X4_split_covers_discovery_witness :
  ∃ train val,
    split_result
      (build_dataset segmentation vegas (PyBool false) None copies_world)
    = Ok (train, val)
    ∧ train ++ val
      ≡ₚ list_remove "1000" ["7"; "1000"; "8"; "9"; "7"; "1000"; "8"].
Proof.
  apply (X4_split_covers_discovery (R := mt19937) segmentation vegas
           (PyBool false) None copies_world).
  - reflexivity.
  - vm_compute. reflexivity.
  - discriminate.
Defined.

(** X5: with the test flag, whatever was discovered, the train sequence is
    the first 16 ids (or all, when there are fewer) of the train sequence of
    the run without the flag, and the validation sequence the first 4 of
    its validation sequence. *)
Theorem X5_test_mode_truncates `{R : RandomGen} task cfg test vto w ids :
  truthy test = true →
  (get_scene_ids cfg w).1 = Ok ids →
  ids ≠ [] →
  ∃ train val train0 val0,
    split_result (build_dataset task cfg test vto w) = Ok (train, val)
    ∧ split_result (build_dataset task cfg (PyBool false) vto w) = Ok (train0, val0)
    ∧ train = take 16 train0
    ∧ val = take 4 val0
    ∧ (length train ≤ 16)%nat
    ∧ (length val ≤ 4)%nat.
Proof.
  intros Htest Hids Hne.
  destruct (get_scene_ids cfg w) as [r w1] eqn:Hget. simpl in Hids. subst r.
  eexists _, _, _, _.
  split; [by eapply split_result_run|].
  split; [by eapply split_result_run|].
  rewrite Htest. cbn [truthy]. rewrite !firstn_all, !length_take.
  repeat split; lia.
Qed.

Lemma X5_test_mode_truncates_witness :
  ∃ train val train0 val0,
    split_result (build_dataset segmentation vegas (PyBool true) None scenario_world)
    = Ok (train, val)
    ∧ split_result
        (build_dataset segmentation vegas (PyBool false) None scenario_world)
      = Ok (train0, val0)
    ∧ train = take 16 train0
    ∧ val = take 4 val0
    ∧ (length train ≤ 16)%nat
    ∧ (length val ≤ 4)%nat.
Proof.
  apply (X5_test_mode_truncates (R := mt19937) segmentation vegas (PyBool true)
           None scenario_world scenario_ids).
  - reflexivity.
  - vm_compute. reflexivity.
  - discriminate.
Defined.

(** X6: the small cases of the split, without the test flag.  [N] being
    the number of ids left after the removal of "1000": the train sequence
    is empty only when [N] is 0 (a discovery of "1000" alone is split into
    two empty sequences, no error is raised), the validation sequence is
    empty exactly when [N] is at most 2, and it is never longer than the
    train sequence. *)
Theorem X6_small_splits `{R : RandomGen} task cfg test vto w ids :
  truthy test = false →
  (get_scene_ids cfg w).1 = Ok ids →
  ids ≠ [] →
  Z.of_nat (length ids) < 2 ^ 48 →
  ∃ train val,
    split_result (build_dataset task cfg test vto w) = Ok (train, val)
    ∧ (train = []
       ↔ (length ids - (if bool_decide ("1000" ∈ ids) then 1 else 0) = 0)%nat)
    ∧ (val = []
       ↔ (length ids - (if bool_decide ("1000" ∈ ids) then 1 else 0) ≤ 2)%nat)
    ∧ (length val ≤ length train)%nat.
Proof.
  intros Htest Hids Hne Hlen.
  destruct (get_scene_ids cfg w) as [r w1] eqn:Hget. simpl in Hids. subst r.
  pose proof (num_train_ids_bounds ids ltac:(lia)) as Hk.
  pose proof (kept_length ids) as HN.
  assert (num_train_ids ids = (8 * Z.of_nat (length (kept ids)) + 5) / 10) as Hnear.
  { apply round_mul_0_8_nearest. rewrite HN. lia. }
  eexists _, _. split; [by eapply split_result_run|].
  rewrite Htest, !firstn_all. rewrite <-HN.
  set (N := length (kept ids)) in *. set (k := num_train_ids ids) in *.
  pose proof (Z.div_mod (8 * Z.of_nat N + 5) 10 ltac:(lia)) as Hdm.
  pose proof (Z.mod_pos_bound (8 * Z.of_nat N + 5) 10 ltac:(lia)) as Hr.
  rewrite <-Hnear in Hdm.
  rewrite <-!length_zero_iff_nil, length_take, length_drop.
  fold N. lia.
Qed.

Lemma X6_small_splits_witness :
  ∃ train val,
    split_result
      (build_dataset segmentation vegas (PyBool false) None
         (data_root vegas ["1000"] (MT19937.seed 0)))
    = Ok (train, val)
    ∧ (train = []
       ↔ (length ["1000"] - (if bool_decide ("1000" ∈ ["1000"]) then 1 else 0)
          = 0)%nat)
    ∧ (val = []
       ↔ (length ["1000"] - (if bool_decide ("1000" ∈ ["1000"]) then 1 else 0)
          ≤ 2)%nat)
    ∧ (length val ≤ length train)%nat.
Proof.
  apply (X6_small_splits (R := mt19937) segmentation vegas (PyBool false) None
           (data_root vegas ["1000"] (MT19937.seed 0)) ["1000"]).
  - reflexivity.
  - vm_compute. reflexivity.
  - discriminate.
  - vm_compute. reflexivity.
Defined.

(** *** Scenes, and [exp_main] as a whole *)

(** The vector source inside a label source. *)
Definition vector_source (ls : LabelSource) : VectorSource :=
  match ls with
  | SemanticSegmentationLabels vs _ => vs
  | ChipClassificationLabels vs _ => vs
  | ObjectDetectionLabels vs => vs
  end.

Section run_facts.
Context `{R : RandomGen}.

Lemma build_dataset_scenes task cfg test vto w d :
  (build_dataset task cfg test vto w).1 = Ok d →
  train_scenes d
  = (λ id, build_scene task cfg id [0; 1; 2] vto) <$> train_ids d
  ∧ validation_scenes d
    = (λ id, build_scene task cfg id [0; 1; 2] vto) <$> val_ids d.
Proof.
  destruct (get_scene_ids cfg w) as [[ids|e] w1] eqn:Hget.
  2:{ by rewrite (build_dataset_raise _ _ _ _ _ _ _ Hget). }
  destruct (decide (ids = [])) as [->|Hne].
  { by rewrite (build_dataset_empty _ _ _ _ _ _ Hget). }
  unfold build_dataset. unfold mbind at 1, Py_bind at 1. rewrite Hget.
  destruct (decide (length ids = 0%nat)) as [Hlen|_].
  { by apply length_zero_iff_nil in Hlen. }
  unfold mbind, Py_bind, random_seed, random_shuffle, log, mret, Py_ret. cbn.
  destruct (shuffle (sorted ids) (seed 5678)) as [x g']. cbn.
  destruct (bool_decide ("1000" ∈ x)); cbn; intros Hd;
    injection Hd as <-;
    unfold train_ids, val_ids; cbn; by rewrite !fmap_build_scene_ids.
Qed.

(** [build_dataset] raises only while discovering, before it seeds. *)
Lemma build_dataset_raise_inv task cfg test vto w e :
  (build_dataset task cfg test vto w).1 = Raise e →
  (e = AttributeError ∨ e = ValueError NoScenesFound)
  ∧ (build_dataset task cfg test vto w).2
    = World (listing w) (rng w)
        (trace w ++ [EvListPaths (label_dir_uri cfg) ".geojson"]).
Proof.
  pose proof (get_scene_ids_run cfg w) as Hrun.
  destruct (get_scene_ids cfg w) as [[ids|e'] w1] eqn:Hget.
  - destruct ids as [|id ids].
    + rewrite (build_dataset_empty _ _ _ _ _ _ Hget). cbn.
      intros [= <-]. split; [by right|]. by injection Hrun as _ ->.
    + destruct (build_dataset_run task cfg test vto w (id :: ids) w1 Hget
                  ltac:(done)) as (d & -> & _).
      by cbn.
  - rewrite (build_dataset_raise _ _ _ _ _ _ _ Hget). cbn.
    intros [= <-]. injection Hrun as He ->. split; [|done].
    left. destruct (mapM _ _); [done|]. by injection He.
Qed.

(** [exp_main], one call after the other. *)
Lemma exp_main_unfold raw_uri root_uri test target task_type vto w :
  exp_main raw_uri root_uri test target task_type vto w
  = match str_to_bool test with
    | Raise e => (Raise e, w)
    | Ok test' =>
    match create raw_uri target with
    | Raise e => (Raise e, w)
    | Ok cfg =>
    match validate_options (PyStr.upper task_type) target vto with
    | Raise e => (Raise e, w)
    | Ok _ =>
    match VectorTileOptions_build vto with
    | Raise e => (Raise e, w)
    | Ok vto' =>
    match build_task (PyStr.upper task_type) (get_class_map cfg) with
    | Raise e => (Raise e, w)
    | Ok task =>
    match build_dataset task cfg test' vto' w with
    | (Raise e, w') => (Raise e, w')
    | (Ok d, w') =>
        (Ok {| exp_id := target +:+ "-" +:+ PyStr.lower task_type;
               exp_task := task;
               exp_backend := build_backend task test';
               exp_dataset := d;
               exp_root_uri := root_uri |}, w')
    end end end end end end.
Proof.
  unfold exp_main, mbind, Py_bind, lift, mret, Py_ret.
  destruct (str_to_bool test); [|done].
  destruct (create raw_uri target); [|done].
  destruct (validate_options _ _ _); [|done].
  destruct (VectorTileOptions_build vto); [|done].
  destruct (build_task _ _); [|done].
  by destruct (build_dataset _ _ _ _ _) as [[?|?] ?].
Qed.


Lemma validate_options_Ok t g v :
  validate_options t g v = Ok () →
  t ∈ valid_task_types
  ∧ g ∈ [ROADS; BUILDINGS]
  ∧ ¬ (g = ROADS ∧ t = rv.name rv.OBJECT_DETECTION)
  ∧ (∀ s, v = Some s → length (PyStr.split "," s) = 3%nat).
Proof.
  unfold validate_options.
  case_bool_decide as Ht; [done|]. try apply dec_stable in Ht.
  case_bool_decide as Hg; [done|]. try apply dec_stable in Hg.
  destruct (bool_decide (g = ROADS) && _) eqn:Hro; [done|].
  intros Hv. split; [done|]. split; [done|]. split.
  - intros [-> ->]. rewrite bool_decide_eq_true_2 in Hro by done.
    rewrite bool_decide_eq_true_2 in Hro by (by left). done.
  - intros s ->. destruct (decide _) as [|Hlen]; [done|].
    try apply dec_stable in Hlen. done.
Qed.
End run_facts.

(** X7: every scene of the dataset that [build_dataset] returns, train or
    validation, carries the task it was given and the channels 0, 1, 2,
    reads the raster that [get_raster_source_uri] names for its id, takes
    its labels from the GeoJSON file of that id, or from the vector tiles
    when options for them are given. *)
Theorem X7_dataset_scenes `{R : RandomGen} task cfg test vto w ids :
  (get_scene_ids cfg w).1 = Ok ids →
  ids ≠ [] →
  ∃ d,
    (build_dataset task cfg test vto w).1 = Ok d
    ∧ Forall
        (λ sc,
           scene_task sc = task
           ∧ channel_order sc = [0; 1; 2]
           ∧ raster_source_uri sc = get_raster_source_uri cfg (scene_id sc)
           ∧ vector_source (label_source sc)
             = match vto with
               | None => GeoJSONSource (get_geojson_uri cfg (scene_id sc))
               | Some o =>
                   VectorTileSource (get_class_id_to_filter cfg)
                     (vt_uri o) (vt_zoom o) (vt_id_field o)
               end)
        (train_scenes d ++ validation_scenes d).
Proof.
  intros Hids Hne.
  destruct (get_scene_ids cfg w) as [r w1] eqn:Hget. simpl in Hids. subst r.
  destruct (build_dataset_run task cfg test vto w ids w1 Hget Hne)
    as (d & Hrun & _).
  exists d. split; [by rewrite Hrun|].
  destruct (build_dataset_scenes task cfg test vto w d) as [-> ->];
    [by rewrite Hrun|].
  rewrite <-fmap_app. apply Forall_fmap, Forall_true. intros id. cbn.
  unfold build_scene.
  by destruct (task_type task), (cls cfg), vto.
Qed.

Lemma X7_dataset_scenes_witness :
  ∃ d,
    (build_dataset segmentation vegas (PyBool false) None scenario_world).1 = Ok d
    ∧ Forall
        (λ sc,
           scene_task sc = segmentation
           ∧ channel_order sc = [0; 1; 2]
           ∧ raster_source_uri sc = get_raster_source_uri vegas (scene_id sc)
           ∧ vector_source (label_source sc)
             = match None with
               | None => GeoJSONSource (get_geojson_uri vegas (scene_id sc))
               | Some o =>
                   VectorTileSource (get_class_id_to_filter vegas)
                     (vt_uri o) (vt_zoom o) (vt_id_field o)
               end)
        (train_scenes d ++ validation_scenes d).
Proof.
  apply (X7_dataset_scenes (R := mt19937) segmentation vegas (PyBool false) None
           scenario_world scenario_ids).
  - vm_compute. reflexivity.
  - discriminate.
Defined.

(** X8: when [exp_main] raises, the global generator is in the state it
    was in: nothing was seeded or shuffled.  The exception is either one of
    discovery (a path that does not match, or no scene), raised after the
    label directory was listed, or it is raised before anything was listed
    and the world is unchanged. *)
Theorem X8_exp_main_errors `{R : RandomGen}
    raw_uri root_uri test target task_type vto w e :
  (exp_main raw_uri root_uri test target task_type vto w).1 = Raise e →
  rng (exp_main raw_uri root_uri test target task_type vto w).2 = rng w
  ∧ ((exp_main raw_uri root_uri test target task_type vto w).2 = w
     ∨ ((e = AttributeError ∨ e = ValueError NoScenesFound)
        ∧ ∃ cfg,
            create raw_uri target = Ok cfg
            ∧ (exp_main raw_uri root_uri test target task_type vto w).2
              = World (listing w) (rng w)
                  (trace w ++ [EvListPaths (label_dir_uri cfg) ".geojson"]))).
Proof.
  rewrite exp_main_unfold.
  destruct (str_to_bool test) as [test'|]; [|by auto].
  destruct (create raw_uri target) as [cfg|]; [|by auto].
  destruct (validate_options _ _ _); [|by auto].
  destruct (VectorTileOptions_build vto) as [vto'|]; [|by auto].
  destruct (build_task _ _) as [task|]; [|by auto].
  pose proof (build_dataset_raise_inv task cfg test' vto' w) as Hinv.
  destruct (build_dataset task cfg test' vto' w) as [[d|e'] w']; [done|].
  cbn in *. intros [= ->]. destruct (Hinv e eq_refl) as [He ->].
  split; [done|]. right. split; [done|]. by exists cfg.
Qed.

Lemma X8_exp_main_errors_witness :
  rng (exp_main "/data" "/out" (PyStr "yes") "buildings" "chip_classification"
         None scenario_world).2
  = rng scenario_world
  ∧ ((exp_main "/data" "/out" (PyStr "yes") "buildings" "chip_classification"
        None scenario_world).2
     = scenario_world
     ∨ ((ValueError (ExpectedTrueOrFalse "yes") = AttributeError
         ∨ ValueError (ExpectedTrueOrFalse "yes") = ValueError NoScenesFound)
        ∧ ∃ cfg,
            create "/data" "buildings" = Ok cfg
            ∧ (exp_main "/data" "/out" (PyStr "yes") "buildings"
                 "chip_classification" None scenario_world).2
              = World (listing scenario_world) (rng scenario_world)
                  (trace scenario_world
                   ++ [EvListPaths (label_dir_uri cfg) ".geojson"]))).
Proof.
  apply (X8_exp_main_errors (R := mt19937) "/data" "/out" (PyStr "yes")
           "buildings" "chip_classification" None scenario_world
           (ValueError (ExpectedTrueOrFalse "yes"))).
  vm_compute. reflexivity.
Defined.



Lemma validate_options_intro t g v :
  t ∈ valid_task_types →
  g ∈ [ROADS; BUILDINGS] →
  ¬ (g = ROADS ∧ t = rv.name rv.OBJECT_DETECTION) →
  (∀ s, v = Some s → length (PyStr.split "," s) = 3%nat) →
  validate_options t g v = Ok ().
Proof.
  intros Ht Hg Hro Hv. unfold validate_options.
  rewrite bool_decide_eq_false_2 by (intros Hn; by apply Hn).
  rewrite bool_decide_eq_false_2 by (intros Hn; by apply Hn).
  destruct (bool_decide (g = ROADS) && _) eqn:Hb.
  { apply andb_true_iff in Hb as [Hg'%bool_decide_eq_true Ht'%bool_decide_eq_true].
    destruct Hro. split; [done|]. by apply list_elem_of_singleton in Ht'. }
  destruct v as [s|]; [|done].
  by rewrite decide_False by (intros Hn; by apply Hn, Hv).
Qed.





(** *** Options *)

(** The number of occurrences of a character in a string. *)
Fixpoint count_char (c : ascii) (s : string) : nat :=
  match s with
  | EmptyString => 0
  | String x s' => (if decide (x = c) then 1 else 0) + count_char c s'
  end.

Lemma length_split_go sep cur s :
  length (PyStr.split_go sep cur s) = S (count_char sep s).
Proof.
  revert cur. induction s as [|x s IH]; intros cur; simpl; [done|].
  destruct (decide (x = sep)); simpl; by rewrite IH.
Qed.

Lemma upper_lower_char c :
  PyStr.upper_char (PyStr.lower_char c) = PyStr.upper_char c.
Proof. by destruct c as [[] [] [] [] [] [] [] []]. Qed.

Lemma lower_lower_char c :
  PyStr.lower_char (PyStr.lower_char c) = PyStr.lower_char c.
Proof. by destruct c as [[] [] [] [] [] [] [] []]. Qed.

Lemma upper_lower s : PyStr.upper (PyStr.lower s) = PyStr.upper s.
Proof.
  induction s as [|c s IH]; simpl; [done|]. by rewrite upper_lower_char, IH.
Qed.

Lemma lower_lower s : PyStr.lower (PyStr.lower s) = PyStr.lower s.
Proof.
  induction s as [|c s IH]; simpl; [done|]. by rewrite lower_lower_char, IH.
Qed.



(** X12: with a task type and a target that are accepted on their own,
    [validate_options] accepts a string of vector tile options exactly when
    the string holds two commas; what stands between the commas is not
    looked at. *)
Theorem X12_tile_options_two_commas t g s :
  validate_options t g None = Ok () →
  (validate_options t g (Some s) = Ok () ↔ count_char "," s = 2%nat).
Proof.
  intros (Ht & Hg & Hro & _)%validate_options_Ok.
  assert (length (PyStr.split "," s) = S (count_char "," s)) as Hlen
    by apply length_split_go.
  split.
  - intros (_ & _ & _ & Hv)%validate_options_Ok.
    specialize (Hv s eq_refl). lia.
  - intros Hc. apply validate_options_intro; try done.
    intros ? [= <-]. lia.
Qed.

Lemma X12_tile_options_two_commas_witness :
  validate_options "SEMANTIC_SEGMENTATION" "roads" (Some ",,") = Ok ()
  ↔ count_char "," ",," = 2%nat.
Proof.
  apply (X12_tile_options_two_commas "SEMANTIC_SEGMENTATION" "roads" ",,").
  vm_compute. reflexivity.
Defined.

(** X13: what [str_to_bool] returns is never a string, and applying
    [str_to_bool] to it again returns it unchanged. *)
Theorem X13_str_to_bool_idempotent x y :
  str_to_bool x = Ok y → (∀ s, y ≠ PyStr s) ∧ str_to_bool y = Ok y.
Proof.
  destruct x as [b|s| |]; simpl; try (by intros [= <-]).
  repeat case_decide; by intros [= <-].
Qed.

Lemma X13_str_to_bool_idempotent_witness :
  (∀ s, PyBool false ≠ PyStr s) ∧ str_to_bool (PyBool false) = Ok (PyBool false).
Proof.
  apply (X13_str_to_bool_idempotent (PyStr "FALSE") (PyBool false)).
  reflexivity.
Defined.

(** X14: test mode never asks for more training: for every task, the
    backend built with a true test flag has the debug flag set and neither
    a larger batch size nor more epochs than the backend built without it,
    and the same backend type, task and architecture. *)
Theorem X14_test_backend_is_smaller task test :
  truthy test = true →
  debug (build_backend task test) = true
  ∧ debug (build_backend task (PyBool false)) = false
  ∧ batch_size (build_backend task test)
    ≤ batch_size (build_backend task (PyBool false))
  ∧ num_epochs (build_backend task test)
    ≤ num_epochs (build_backend task (PyBool false))
  ∧ backend_type (build_backend task test)
    = backend_type (build_backend task (PyBool false))
  ∧ backend_task (build_backend task test) = task
  ∧ model_arch (build_backend task test)
    = model_arch (build_backend task (PyBool false)).
Proof.
  intros Htest. unfold build_backend. rewrite Htest.
  destruct (task_type task); cbn; repeat split; lia.
Qed.

Lemma X14_test_backend_is_smaller_witness :
  debug (build_backend segmentation (PyInt 1)) = true
  ∧ debug (build_backend segmentation (PyBool false)) = false
  ∧ batch_size (build_backend segmentation (PyInt 1))
    ≤ batch_size (build_backend segmentation (PyBool false))
  ∧ num_epochs (build_backend segmentation (PyInt 1))
    ≤ num_epochs (build_backend segmentation (PyBool false))
  ∧ backend_type (build_backend segmentation (PyInt 1))
    = backend_type (build_backend segmentation (PyBool false))
  ∧ backend_task (build_backend segmentation (PyInt 1)) = segmentation
  ∧ model_arch (build_backend segmentation (PyInt 1))
    = model_arch (build_backend segmentation (PyBool false)).
Proof.
  apply (X14_test_backend_is_smaller segmentation (PyInt 1)).
  reflexivity.
Defined.

(** X15: the letter case of a task type of ASCII characters does not matter
    to [exp_main]: with the task type in lower case the result and the
    final world are those of the task type as given, the experiment id
    included. *)
Theorem X15_task_type_case_insensitive `{R : RandomGen}
    raw_uri root_uri test target task_type vto w :
  is_ascii task_type →
  exp_main raw_uri root_uri test target (PyStr.lower task_type) vto w
  = exp_main raw_uri root_uri test target task_type vto w.
Proof.
  intros _. rewrite !exp_main_unfold. by rewrite upper_lower, lower_lower.
Qed.

Lemma X15_task_type_case_insensitive_witness :
  exp_main "/data" "/out" (PyStr "False") "buildings"
    (PyStr.lower "Chip_Classification") None scenario_world
  = exp_main "/data" "/out" (PyStr "False") "buildings" "Chip_Classification"
      None scenario_world.
Proof.
  apply (X15_task_type_case_insensitive (R := mt19937) "/data" "/out"
           (PyStr "False") "buildings" "Chip_Classification" None
           scenario_world).
  apply (bool_decide_unpack _). vm_compute. exact I.
Defined.

Lemma rev_app_app (a b acc : string) :
  String.rev_app (a +:+ b) acc = String.rev_app b (String.rev_app a acc).
Proof.
  revert acc. induction a as [|x a IH]; intros acc; [done|].
  rewrite app_cons_str. simpl. by rewrite IH.
Qed.

Lemma join2_trailing_slash dir b :
  dir ≠ "" →
  PyStr.endswith dir "/" = false →
  PyStr.join2 (dir +:+ "/") b = PyStr.join2 dir b.
Proof.
  intros Hne Hend. unfold PyStr.join2.
  destruct (PyStr.startswith b "/"); [done|].
  rewrite (decide_False (P := dir = "")) by done.
  rewrite decide_False by (by destruct dir).
  rewrite Hend.
  assert (PyStr.endswith (dir +:+ "/") "/" = true) as ->.
  { unfold PyStr.endswith, String.rev. rewrite rev_app_app. simpl.
    by destruct (String.rev_app dir ""). }
  by rewrite app_assoc_str.
Qed.

(** X16: a slash at the end of the data root makes no difference: for a
    non-empty root that does not end with a slash, the configurations that
    [create] builds for the root and for the root followed by a slash name
    the same label directory and the same raster and label file for every
    id. *)
Theorem X16_trailing_slash raw target cfg cfg' id :
  raw ≠ "" →
  PyStr.endswith raw "/" = false →
  create raw target = Ok cfg →
  create (raw +:+ "/") target = Ok cfg' →
  label_dir_uri cfg' = label_dir_uri cfg
  ∧ get_raster_source_uri cfg' id = get_raster_source_uri cfg id
  ∧ get_geojson_uri cfg' id = get_geojson_uri cfg id.
Proof.
  intros Hne Hend Hcfg Hcfg'.
  apply create_cases in Hcfg as [[Ht ->]|[Ht ->]];
    apply create_cases in Hcfg' as [[Ht' ->]|[Ht' ->]];
    try (rewrite Ht in Ht'; discriminate Ht');
    unfold label_dir_uri, get_raster_source_uri, get_geojson_uri,
      PyStr.path_join;
    cbn [foldl raw_uri base_dir VegasBuildings VegasRoads];
    by rewrite !join2_trailing_slash.
Qed.

Lemma X16_trailing_slash_witness :
  label_dir_uri (VegasRoads ("s3://bucket" +:+ "/"))
  = label_dir_uri (VegasRoads "s3://bucket")
  ∧ get_raster_source_uri (VegasRoads ("s3://bucket" +:+ "/")) "42"
    = get_raster_source_uri (VegasRoads "s3://bucket") "42"
  ∧ get_geojson_uri (VegasRoads ("s3://bucket" +:+ "/")) "42"
    = get_geojson_uri (VegasRoads "s3://bucket") "42".
Proof.
  apply (X16_trailing_slash "s3://bucket" "roads").
  - discriminate.
  - reflexivity.
  - reflexivity.
  - reflexivity.
Defined.

(** X17: [build_dataset] overwrites the state of the global generator:
    after a run that discovered at least one scene, the generator is in the
    state that seeding with 5678 and shuffling the sorted ids leaves, which
    does not depend on the state before the run, nor on the order of the
    listing. *)
Theorem X17_generator_after_run `{R : RandomGen}
    task cfg test vto w1 w2 ids1 ids2 :
  (get_scene_ids cfg w1).1 = Ok ids1 →
  (get_scene_ids cfg w2).1 = Ok ids2 →
  ids1 ≠ [] →
  ids1 ≡ₚ ids2 →
  rng (build_dataset task cfg test vto w1).2
  = (shuffle (sorted ids1) (seed 5678)).2
  ∧ rng (build_dataset task cfg test vto w1).2
    = rng (build_dataset task cfg test vto w2).2.
Proof.
  intros H1 H2 Hne1 Hperm.
  destruct (get_scene_ids cfg w1) as [r1 w1'] eqn:Hget1. simpl in H1. subst r1.
  destruct (get_scene_ids cfg w2) as [r2 w2'] eqn:Hget2. simpl in H2. subst r2.
  assert (ids2 ≠ []) as Hne2.
  { intros ->. by apply Permutation_nil_r in Hperm. }
  destruct (build_dataset_run task cfg test vto w1 ids1 w1' Hget1 Hne1)
    as (d1 & -> & _).
  destruct (build_dataset_run task cfg test vto w2 ids2 w2' Hget2 Hne2)
    as (d2 & -> & _).
  cbn. by rewrite (sorted_unique _ _ Hperm).
Qed.

Lemma X17_generator_after_run_witness :
  rng (build_dataset segmentation vegas (PyBool false) None
         (data_root vegas ["3"; "1"; "2"] (MT19937.seed 1))).2
  = (shuffle (R := mt19937) (sorted ["3"; "1"; "2"]) (seed 5678)).2
  ∧ rng (build_dataset segmentation vegas (PyBool false) None
           (data_root vegas ["3"; "1"; "2"] (MT19937.seed 1))).2
    = rng (build_dataset segmentation vegas (PyBool false) None
             (data_root vegas ["2"; "3"; "1"] (MT19937.seed 2))).2.
Proof.
  apply (X17_generator_after_run (R := mt19937) segmentation vegas (PyBool false)
           None
           (data_root vegas ["3"; "1"; "2"] (MT19937.seed 1))
           (data_root vegas ["2"; "3"; "1"] (MT19937.seed 2))
           ["3"; "1"; "2"] ["2"; "3"; "1"]).
  - vm_compute. reflexivity.
  - vm_compute. reflexivity.
  - discriminate.
  - apply (bool_decide_unpack _). vm_compute. exact I.
Defined.
